(** * The Python job adapter of Calamares: src/libcalamares/python/PythonJob.cpp

    A shallow embedding of [getPrettyNameFromScope] and of [Job::exec], the
    function that runs one guest script in a fresh interpreter and maps what
    happens to a [JobResult].

    The definitions come first: the Qt text operations the adapter uses,
    the guest values and the pybind11 conversions, the adapter itself in a
    state-and-exception monad, and the notions and the sample job of the
    statements. The proofs follow: facts about the text operations, about
    the trace and the exceptions of each stage, the claims C1 to C10, and
    the further properties X1 to X26 of the rest of the file. *)

From Stdlib Require Import ZArith QArith Ascii.
From stdpp Require Import gmap strings list.

(** ** Qt text

    A [QString] is modelled by a Rocq [string]: the sequence of its
    characters, each character a code unit in the range 0-255. *)

Module Qt.

Abbreviation QString := string.

(** [QChar::isSpace]: the characters 9-13 and 32, and above 127 the
    characters 0x85 and 0xA0 (the other Unicode separators lie outside the
    character range of the model). *)
Definition isSpace (c : ascii) : bool :=
  let n := nat_of_ascii c in
  ((9 <=? n) && (n <=? 13)) || (n =? 32) || (n =? 133) || (n =? 160).

Definition isEmpty (s : QString) : bool :=
  match s with EmptyString => true | String _ _ => false end.

Fixpoint trimmed_left (s : QString) : QString :=
  match s with
  | EmptyString => EmptyString
  | String c r => if isSpace c then trimmed_left r else s
  end.

Fixpoint trimmed_right (s : QString) : QString :=
  match s with
  | EmptyString => EmptyString
  | String c r =>
      let r' := trimmed_right r in
      if isSpace c && isEmpty r' then EmptyString else String c r'
  end.

(** [QString::trimmed]: whitespace removed from the start and the end. *)
Definition trimmed (s : QString) : QString := trimmed_right (trimmed_left s).

(** [QString::indexOf(QChar)]: position of the first occurrence, -1 if
    there is none. *)
Fixpoint indexOf (c : ascii) (s : QString) : Z :=
  match s with
  | EmptyString => (-1)%Z
  | String d r =>
      if Ascii.eqb d c then 0%Z
      else let i := indexOf c r in if (i <? 0)%Z then (-1)%Z else (i + 1)%Z
  end.

(** [QString::left(n)]: the first [n] characters, the whole string when
    it is shorter. *)
Fixpoint leftChars (n : nat) (s : QString) : QString :=
  match n, s with
  | S m, String c r => String c (leftChars m r)
  | _, _ => EmptyString
  end.

(** [QString::truncate(pos)]: keeps the first [pos] characters; a position
    past the end changes nothing, a negative one counts as zero. *)
Definition truncate (pos : Z) (s : QString) : QString := leftChars (Z.to_nat pos) s.

(** *** Place markers, [QString::arg]

    A place marker is a percent sign, an optional [L], and one or two
    decimal digits. [arg] replaces every occurrence of the lowest-numbered
    marker; a string without markers is returned as it is. *)

Inductive ArgToken : Type :=
  | TChar (c : ascii)
  | TEscape (number : nat) (text : QString).

Definition digitValue (c : ascii) : option nat :=
  let n := nat_of_ascii c in
  if (48 <=? n) && (n <=? 57) then Some (n - 48) else None.

Definition escapeText (locale : bool) (digits : QString) : QString :=
  String "%" (if locale then String "L" digits else digits).

(** The scan of [findArgEscapes]: after a percent sign that starts no
    marker the scan goes on at the character that was looked at last. *)
Fixpoint argTokens (s : QString) : list ArgToken :=
  match s with
  | EmptyString => []
  | String c r =>
      if negb (Ascii.eqb c "%") then TChar c :: argTokens r
      else
        match r with
        | EmptyString => [TChar c]
        | String l r1 =>
            if Ascii.eqb l "L" then
              match r1 with
              | EmptyString => [TChar c; TChar l]
              | String d1 r2 =>
                  match digitValue d1 with
                  | None => TChar c :: TChar l :: argTokens r1
                  | Some n1 =>
                      match r2 with
                      | EmptyString => [TEscape n1 (escapeText true (String d1 ""))]
                      | String d2 r3 =>
                          match digitValue d2 with
                          | Some n2 =>
                              TEscape (10 * n1 + n2) (escapeText true (String d1 (String d2 "")))
                                :: argTokens r3
                          | None => TEscape n1 (escapeText true (String d1 "")) :: argTokens r2
                          end
                      end
                  end
              end
            else
              match digitValue l with
              | None => TChar c :: argTokens r
              | Some n1 =>
                  match r1 with
                  | EmptyString => [TEscape n1 (escapeText false (String l ""))]
                  | String d2 r2 =>
                      match digitValue d2 with
                      | Some n2 =>
                          TEscape (10 * n1 + n2) (escapeText false (String l (String d2 "")))
                            :: argTokens r2
                      | None => TEscape n1 (escapeText false (String l "")) :: argTokens r1
                      end
                  end
              end
        end
  end.

(** The lowest marker number of a token list, if it has a marker. *)
Fixpoint minEscape (ts : list ArgToken) : option nat :=
  match ts with
  | [] => None
  | TChar _ :: r => minEscape r
  | TEscape n _ :: r =>
      match minEscape r with
      | Some m => Some (Nat.min n m)
      | None => Some n
      end
  end.

Fixpoint replaceEscapes (m : nat) (a : QString) (ts : list ArgToken) : QString :=
  match ts with
  | [] => ""
  | TChar c :: r => String c (replaceEscapes m a r)
  | TEscape n text :: r =>
      (if n =? m then a else text) +:+ replaceEscapes m a r
  end.

(** [QString::arg(const QString&)]. *)
Definition arg (s a : QString) : QString :=
  let ts := argTokens s in
  match minEscape ts with
  | None => s
  | Some m => replaceEscapes m a ts
  end.

(** [s] has a place marker. *)
Definition hasEscape (s : QString) : Prop := minEscape (argTokens s) <> None.

(** [a] occurs in [s]. *)
Definition includes (a s : QString) : Prop :=
  exists pre post : QString, s = pre +:+ a +:+ post.

End Qt.

Import Qt.

(** ** Guest values

    The values of the guest language that the script contract tells apart.
    A callable carries what one call of it does: the effects it has on the
    interpreter and on the job, in order, and how the call ends. Guest
    code that does not end is outside the model. *)

#[warning="-register-all"]
Inductive PyValue : Type :=
  | PyNone
  | PyInt (z : Z)
  | PyStr (s : string)
  | PyTuple (items : list PyValue)
  | PyList (items : list PyValue)
  | PyFunction (body : list GuestOp) (result : PyResult)
with GuestOp : Type :=
  | OpBind (name : string) (v : PyValue)    (* a top-level name is bound *)
  | OpUnbind (name : string)                (* a top-level name is deleted *)
  | OpSetProgress (value : Q)               (* libcalamares.job.setprogress *)
with PyResult : Type :=
  | PyReturn (v : PyValue)
  | PyRaise (what : string).

(** Source text of the guest language (the pre-script, the script file),
    represented by what running it as top-level statements does. *)
Record GuestCode : Type := mkGuestCode {
  code_ops : list GuestOp;
  code_result : PyResult
}.

(** ** C++ exceptions

    The two exception classes of pybind11 that the adapter handles:
    [py::cast_error] (a conversion to a C++ type failed) and
    [py::error_already_set] (the guest raised). *)

Inductive CppException : Type :=
  | cast_error (what : string)
  | error_already_set (what : string).

Inductive Outcome (A : Type) : Type :=
  | Returned (a : A)
  | Thrown (e : CppException).
Arguments Returned {A} a.
Arguments Thrown {A} e.

(** ** Job results *)

Module JobResult.

(** Modelled from the spec: the class JobResult of Job.h, which is not among
    the sources. "Job Result: a tagged outcome - Success,
    Error { summary, details }, or InternalError { summary, details,
    cause-code }". The constructors carry the names of the factory
    functions that PythonJob.cpp calls; [PythonUncaughtException] is the
    cause-code the spec calls uncaught-guest-exception. *)
Inductive ErrorCode : Type :=
  | PythonUncaughtException.

Inductive t : Type :=
  | ok
  | error (summary details : QString)
  | internalError (summary details : QString) (errorCode : ErrorCode).

End JobResult.

Abbreviation JobResult := JobResult.t.

(** ** What the adapter leaves behind

    Events are recorded in the order in which they happen. *)

Inductive Emitter : Type :=
  | ByExec           (* Q_EMIT progress( 0 ) in Job::exec *)
  | ByEmitProgress.  (* Job::emitProgress, reached from the guest's setprogress *)

Inductive Event : Type :=
  | InterpreterInitialized          (* py::scoped_interpreter constructed *)
  | InterpreterFinalized            (* py::scoped_interpreter destroyed *)
  | ModuleImported (name : string)
  | JobProxyConstructed
  | GlobalStorageProxyConstructed
  | PreScriptExecuted
  | FileEvaluated (path : QString)
  | Lookup (key : string)           (* scope.contains( key ) *)
  | Called (key : string)           (* the object bound to key is called *)
  | Progress (by_ : Emitter) (value : Q).

(** ** The surroundings of the adapter

    Qt's view of the file system, the translation catalogue, the Python
    runtime's import of the API module, the guest files and the text
    conversion helper of python/Pybind11Helpers.h (not among the sources)
    are parameters of the adapter. *)

Record Env : Type := mkEnv {
  tr : string -> QString;                         (* QObject::tr *)
  dir_exists : QString -> bool;                   (* QDir( path ).exists() *)
  dir_isReadable : QString -> bool;               (* QDir( path ).isReadable() *)
  dir_dirName : QString -> QString;               (* QDir( path ).dirName() *)
  dir_absoluteFilePath : QString -> QString -> QString;
  file_exists : QString -> bool;                  (* QFileInfo( path ).exists() *)
  file_isFile : QString -> bool;
  file_isReadable : QString -> bool;
  file_absoluteFilePath : QString -> QString;
  import_libcalamares : option string;            (* what() when the import raises *)
  file_code : QString -> GuestCode;               (* the program stored at a path *)
  asQString : PyValue -> Outcome QString
}.

(** Modelled from the spec: asQString of python/Pybind11Helpers.h, which is
    not among the sources. "Any other return value must be a 2-element
    ordered sequence of text; element 0 is the error summary, element 1 is
    the error detail", reported "with exactly those two strings,
    unmodified"; "wrong element types" are invalid results. A text value
    is handed over as it is, any other value fails to convert. *)
Definition asQString_spec (o : PyValue) : Outcome QString :=
  match o with
  | PyStr s => Returned s
  | _ => Thrown (cast_error "Unable to cast Python instance to C++ type")
  end.

(** ** State *)

(** [Job::Private]. The configuration map plays no part in [exec] and is
    left out. *)
Record Private : Type := mkPrivate {
  scriptFile : QString;
  workingPath : QString;
  description : QString
}.

Record State : Type := mkState {
  m_d : Private;
  s_preScript : option GuestCode;        (* the process-wide pre-script slot *)
  globals : gmap string PyValue;         (* __main__.__dict__ of the interpreter *)
  trace : list Event
}.

Definition set_description (q : QString) (st : State) : State :=
  mkState (mkPrivate (scriptFile (m_d st)) (workingPath (m_d st)) q)
          (s_preScript st) (globals st) (trace st).

Definition set_globals (g : gmap string PyValue) (st : State) : State :=
  mkState (m_d st) (s_preScript st) g (trace st).

Definition record (ev : Event) (st : State) : State :=
  mkState (m_d st) (s_preScript st) (globals st) (trace st ++ [ev]).

(** [Job::setInjectedPreScript]. *)
Definition setInjectedPreScript (script : option GuestCode) (st : State) : State :=
  mkState (m_d st) script (globals st) (trace st).

(** [Job::emitProgress]. *)
Definition emitProgress (progressValue : Q) (st : State) : State :=
  record (Progress ByEmitProgress progressValue) st.

(** ** The monad of the adapter: state and C++ exceptions *)

Definition M (A : Type) : Type := State -> State * Outcome A.

Definition ret {A} (a : A) : M A := fun st => (st, Returned a).

Definition throw {A} (e : CppException) : M A := fun st => (st, Thrown e).

Definition bind {A B} (m : M A) (k : A -> M B) : M B :=
  fun st =>
    match m st with
    | (st', Returned a) => k a st'
    | (st', Thrown e) => (st', Thrown e)
    end.

Notation "'let*' x := m 'in' k" := (bind m (fun x => k))
  (at level 10, x name, m at level 100, k at level 200, only parsing).
Notation "m ;;; k" := (bind m (fun _ => k))
  (at level 100, k at level 200, right associativity, only parsing).

Definition get_state : M State := fun st => (st, Returned st).
Definition modify (f : State -> State) : M unit := fun st => (f st, Returned tt).
Definition emit (ev : Event) : M unit := modify (record ev).
Definition lift {A} (o : Outcome A) : M A := fun st => (st, o).

(** [try { body } catch ...]: a handler list maps an exception to the
    code of the first clause that matches it, if there is one. *)
Definition Handlers (A : Type) : Type := CppException -> option (M A).

Definition try_catch {A} (body : M A) (handlers : Handlers A) : M A :=
  fun st =>
    match body st with
    | (st', Thrown e) =>
        match handlers e with
        | Some h => h st'
        | None => (st', Thrown e)
        end
    | r => r
    end.

(** [catch ( const py::cast_error& e )]. *)
Definition catch_cast_error {A} (h : string -> M A) : Handlers A :=
  fun e => match e with cast_error w => Some (h w) | _ => None end.

(** [catch ( const py::error_already_set& e )]. *)
Definition catch_error_already_set {A} (h : string -> M A) : Handlers A :=
  fun e => match e with error_already_set w => Some (h w) | _ => None end.

(** Two clauses of one try block, tried in order. *)
Definition or_catch {A} (h1 h2 : Handlers A) : Handlers A :=
  fun e => match h1 e with Some m => Some m | None => h2 e end.

(** ** The interpreter as pybind11 shows it *)

(** The top-level namespace of a fresh interpreter. The runtime's own
    objects in it ([__builtins__], [__loader__]) are never looked up by the
    adapter and are left out. *)
Definition fresh_globals : gmap string PyValue :=
  <["__name__" := PyStr "__main__"]>
    (<["__doc__" := PyNone]>
      (<["__package__" := PyNone]> (<["__spec__" := PyNone]> ∅))).

Definition run_op (op : GuestOp) (st : State) : State :=
  match op with
  | OpBind k v => set_globals (<[k := v]> (globals st)) st
  | OpUnbind k => set_globals (delete k (globals st)) st
  | OpSetProgress v => emitProgress v st
  end.

Definition run_ops (ops : list GuestOp) (st : State) : State :=
  fold_left (fun s op => run_op op s) ops st.

(** A guest exception reaches C++ as [py::error_already_set]. *)
Definition finish (r : PyResult) : M PyValue :=
  match r with
  | PyReturn v => ret v
  | PyRaise w => throw (error_already_set w)
  end.

(** Top-level statements run in the namespace of [__main__]: [py::exec]
    and [py::eval_file]. *)
Definition run_code (c : GuestCode) : M PyValue :=
  modify (run_ops (code_ops c)) ;;; finish (code_result c).

(** [f()] with no arguments. Calling what is not callable raises in the
    guest. *)
Definition call (f : PyValue) : M PyValue :=
  match f with
  | PyFunction body result => modify (run_ops body) ;;; finish result
  | _ => throw (error_already_set "TypeError: object is not callable")
  end.

(** [scope.contains( key )] on the live dictionary. *)
Definition contains (key : string) : M bool :=
  emit (Lookup key) ;;;
  let* st := get_state in
  ret (match globals st !! key with Some _ => true | None => false end).

(** [scope[ key ]]. *)
Definition getitem (key : string) : M PyValue :=
  let* st := get_state in
  match globals st !! key with
  | Some v => ret v
  | None => throw (error_already_set "KeyError")
  end.

(** [o.cast< std::string >()]: only text converts. *)
Definition cast_std_string (o : PyValue) : Outcome string :=
  match o with
  | PyStr s => Returned s
  | _ => Thrown (cast_error "Unable to cast Python instance to C++ type")
  end.

(** [s.c_str()] read as a C string: the characters before the first NUL. *)
Fixpoint c_str (s : string) : string :=
  match s with
  | EmptyString => EmptyString
  | String c r => if Ascii.eqb c zero then EmptyString else String c (c_str r)
  end.

(** [QString::fromUtf8] of the encoding of a text gives the text back. *)
Definition fromUtf8 (s : string) : QString := s.

Fixpoint characters (s : string) : list PyValue :=
  match s with
  | EmptyString => []
  | String c r => PyStr (String c EmptyString) :: characters r
  end.

(** [py::tuple items = r]: a tuple is taken as it is, any other iterable
    is converted element by element, and what cannot be iterated raises. *)
Definition to_tuple (r : PyValue) : Outcome (list PyValue) :=
  match r with
  | PyTuple items => Returned items
  | PyList items => Returned items
  | PyStr s => Returned (characters s)
  | _ => Thrown (error_already_set "TypeError: object is not iterable")
  end.

(** [items[ i ]] of a tuple. *)
Definition tuple_item (items : list PyValue) (i : nat) : Outcome PyValue :=
  match items !! i with
  | Some v => Returned v
  | None => Thrown (error_already_set "IndexError: tuple index out of range")
  end.

Definition is_none (r : PyValue) : bool :=
  match r with PyNone => true | _ => false end.

(** [py::scoped_interpreter guard {}]: the interpreter lives from here to
    the end of the enclosing function, whichever way that is left. *)
Definition initialized (st : State) : State :=
  set_globals fresh_globals (record InterpreterInitialized st).

Definition finalized (st : State) : State :=
  set_globals ∅ (record InterpreterFinalized st).

Definition scoped_interpreter {A} (body : M A) : M A :=
  fun st =>
    let (st', r) := body (initialized st) in
    (finalized st', r).

(** ** The adapter *)

Section Adapter.

Context (env : Env).

(** [Job::prettyName]. *)
Definition prettyName (d : Private) : QString := dir_dirName env (workingPath d).

(** [Job::prettyStatusMessage]. *)
Definition prettyStatusMessage (d : Private) : QString :=
  if isEmpty (description d)
  then arg (tr env "Running %1 operation.") (prettyName d)
  else description d.

(** The first block of [getPrettyNameFromScope] (lines 35-47); [None]
    stands for leaving the block without a return. An exception of the
    call itself is not a [cast_error] and passes the handler. *)
Definition name_from_pretty_name : M (option QString) :=
  let* present := contains "pretty_name" in
  if present : bool then
    let* func := getitem "pretty_name" in
    try_catch
      (let* v := (emit (Called "pretty_name") ;;; call func) in
       let* s := lift (cast_std_string v) in
       ret (Some (fromUtf8 (c_str s))))
      (catch_cast_error (fun _ => ret None))
  else ret None.

(** The second block (lines 49-69). *)
Definition name_from_doc : M (option QString) :=
  let* present := contains "__doc__" in
  if present : bool then
    let* doc := getitem "__doc__" in
    try_catch
      (let* s := lift (cast_std_string doc) in
       let string := trimmed (fromUtf8 (c_str s)) in
       let newline_index := indexOf "010" string in
       if (newline_index >=? 0)%Z
       then ret (Some (truncate newline_index string))
       else ret None)
      (catch_cast_error (fun _ => ret None))
  else ret None.

(** [getPrettyNameFromScope( scope )]; the scope is the live namespace of
    the state. *)
Definition getPrettyNameFromScope : M QString :=
  let* r := name_from_pretty_name in
  match r with
  | Some q => ret q
  | None =>
      let* r := name_from_doc in
      match r with
      | Some q => ret q
      | None => ret ""
      end
  end.

(** *** [Job::exec] *)

(** The two pre-flight checks (lines 223-239): [Some] is the result that
    [exec] returns at once. *)
Definition check_paths (d : Private) : option JobResult :=
  let workingDir := workingPath d in
  if negb (dir_exists env workingDir) || negb (dir_isReadable env workingDir)
  then Some (JobResult.error
               (tr env "Bad working directory path")
               (arg (arg (tr env "Working directory %1 for python job %2 is not readable.")
                         (workingPath d))
                    (prettyName d)))
  else
    let scriptFI := dir_absoluteFilePath env workingDir (scriptFile d) in
    if negb (file_exists env scriptFI) || negb (file_isFile env scriptFI)
       || negb (file_isReadable env scriptFI)
    then Some (JobResult.error
                 (tr env "Bad main script file")
                 (arg (arg (tr env "Main script file %1 for python job %2 is not readable.")
                           (file_absoluteFilePath env scriptFI))
                      (prettyName d)))
    else None.

(** The path of the script as the later stages print and load it. *)
Definition scriptPath (d : Private) : QString :=
  file_absoluteFilePath env (dir_absoluteFilePath env (workingPath d) (scriptFile d)).

(** Lines 243-254: the API module is imported and the two proxies are
    bound in it; a failure is passed on to the caller of [exec]. *)
Definition install_api : M unit :=
  try_catch
    (match import_libcalamares env with
     | Some w => throw (error_already_set w)
     | None => emit (ModuleImported "libcalamares")
     end ;;;
     emit JobProxyConstructed ;;;
     emit GlobalStorageProxyConstructed)
    (catch_error_already_set (fun w => throw (error_already_set w))).

(** Lines 256-270. *)
Definition run_pre_script (d : Private) : M (option JobResult) :=
  let* st := get_state in
  match s_preScript st with
  | Some script =>
      try_catch
        (emit PreScriptExecuted ;;; run_code script ;;; ret None)
        (catch_error_already_set (fun _ =>
           ret (Some (JobResult.internalError
                        (tr env "Bad internal script")
                        (arg (tr env "Internal script for python job %1 raised an exception.")
                             (prettyName d))
                        JobResult.PythonUncaughtException))))
  | None => ret None
  end.

(** Lines 272-285. *)
Definition load_script (d : Private) : M (option JobResult) :=
  try_catch
    (emit (FileEvaluated (scriptPath d)) ;;;
     run_code (file_code env (scriptPath d)) ;;;
     ret None)
    (catch_error_already_set (fun _ =>
       ret (Some (JobResult.internalError
                    (tr env "Bad main script file")
                    (arg (arg (tr env "Main script file %1 for python job %2 could not be loaded because it raised an  exception.")
                              (scriptPath d))
                         (prettyName d))
                    JobResult.PythonUncaughtException)))).

(** Lines 243-285 together: [Some] is a result returned before the
    script has been loaded. *)
Definition load (d : Private) : M (option JobResult) :=
  install_api ;;;
  let* early := run_pre_script d in
  match early with
  | Some res => ret (Some res)
  | None => load_script d
  end.

(** Lines 287-290. *)
Definition describe : M unit :=
  let* q := getPrettyNameFromScope in
  modify (set_description q) ;;;
  emit (Progress ByExec 0).

Definition invalid_results (d : Private) : JobResult :=
  JobResult.error
    (tr env "Bad main script file")
    (arg (arg (tr env "Main script file %1 for python job %2 returned invalid results.")
              (scriptPath d))
         (prettyName d)).

(** Lines 313-318: what is made of the value that [run()] returned. The
    two conversions are written in the order of the arguments. *)
Definition translate (r : PyValue) : M JobResult :=
  if is_none r then ret JobResult.ok
  else
    let* items := lift (to_tuple r) in
    let* item0 := lift (tuple_item items 0) in
    let* summary := lift (asQString env item0) in
    let* item1 := lift (tuple_item items 1) in
    let* details := lift (asQString env item1) in
    ret (JobResult.error summary details).

(** Lines 291-343. Inside the try block, [inl] is the result that the
    handler around the call returns, [inr] the value of the call. *)
Definition run_entry (d : Private) : M JobResult :=
  let* present := contains "run" in
  if present : bool then
    let* run := getitem "run" in
    try_catch
      (let* r :=
         try_catch
           (let* v := (emit (Called "run") ;;; call run) in ret (inr v))
           (catch_error_already_set (fun _ =>
              ret (inl (JobResult.internalError
                          (tr env "Bad main script file")
                          (arg (arg (tr env "Main script file %1 for python job %2 raised an exception.")
                                    (scriptPath d))
                               (prettyName d))
                          JobResult.PythonUncaughtException)))) in
       match r with
       | inl res => ret res
       | inr v => translate v
       end)
      (or_catch (catch_cast_error (fun _ => ret (invalid_results d)))
                (catch_error_already_set (fun _ => ret (invalid_results d))))
  else
    ret (JobResult.error
           (tr env "Bad main script file")
           (arg (arg (tr env "Main script file %1 for python job %2 does not contain a run() function.")
                     (scriptPath d))
                (prettyName d))).

(** What [exec] does while the interpreter lives (lines 241-344). *)
Definition interpreted (d : Private) : M JobResult :=
  let* early := load d in
  match early with
  | Some res => ret res
  | None => describe ;;; run_entry d
  end.

Definition exec : M JobResult :=
  let* st := get_state in
  let d := m_d st in
  match check_paths d with
  | Some res => ret res
  | None => scoped_interpreter (interpreted d)
  end.

End Adapter.

(** ** Notions used in the statements *)

(** [exec], started in [st], has passed the pre-flight checks, installed
    the API, run the pre-script if there is one and loaded the script
    without returning early; [st1] is the state at that point. *)
Definition script_loaded (env : Env) (st st1 : State) : Prop :=
  check_paths env (m_d st) = None /\
  load env (m_d st) (initialized st) = (st1, Returned None).

(** [exec], started in [st], has also derived the description and emitted
    the progress of line 290; [st2] is the state in which the binding of
    [run] is looked up. *)
Definition entry_reached (env : Env) (st st2 : State) : Prop :=
  exists st1, script_loaded env st st1 /\ describe st1 = (st2, Returned tt).

(** A call of [f] raises in the guest. *)
Definition raises (f : PyValue) : Prop :=
  match f with
  | PyFunction _ (PyReturn _) => False
  | _ => True
  end.

(** The events that a stage of [exec] can add to the trace. *)
Definition guest_event (ev : Event) : Prop :=
  match ev with Progress ByEmitProgress _ => True | _ => False end.

Definition load_event (ev : Event) : Prop :=
  match ev with
  | ModuleImported _ | JobProxyConstructed | GlobalStorageProxyConstructed
  | PreScriptExecuted | FileEvaluated _ => True
  | _ => guest_event ev
  end.

Definition name_event (ev : Event) : Prop :=
  match ev with
  | Lookup k | Called k => k = "pretty_name" \/ k = "__doc__"
  | _ => guest_event ev
  end.

Definition entry_event (ev : Event) : Prop :=
  match ev with
  | Lookup k | Called k => k = "run"
  | _ => guest_event ev
  end.

(** [st'] is [st] with more events, all of them in [P]. *)
Definition extends (P : Event -> Prop) (st st' : State) : Prop :=
  exists evs, trace st' = trace st ++ evs /\ Forall P evs.

Definition adds_only (P : Event -> Prop) {A} (m : M A) : Prop :=
  forall st, extends P st (fst (m st)).

(** An event that is not the progress signal of [exec] itself. *)
Definition not_by_exec (ev : Event) : Prop :=
  match ev with Progress ByExec _ => False | _ => True end.

(** Guest code that raises when it is run as top-level statements. *)
Definition code_raises (c : GuestCode) : Prop :=
  match code_result c with PyRaise _ => True | PyReturn _ => False end.

(** The pre-script, if one is set, or else the script file raises. *)
Definition setup_raises (env : Env) (st : State) : Prop :=
  (exists script, s_preScript st = Some script /\ code_raises script) \/
  code_raises (file_code env (scriptPath env (m_d st))).

(** A value returned by [run()] that the adapter cannot read as a summary
    and a detail: it cannot be iterated, it has fewer than two elements,
    or one of its first two elements does not convert to text. *)
Definition malformed (env : Env) (r : PyValue) : Prop :=
  match to_tuple r with
  | Thrown _ => True
  | Returned (item0 :: item1 :: _) =>
      (exists e, asQString env item0 = Thrown e) \/
      (exists e, asQString env item1 = Thrown e)
  | Returned _ => True
  end.

(** [translate] with the two conversions in the other order. *)
Definition translate_rev (env : Env) (r : PyValue) : M JobResult :=
  if is_none r then ret JobResult.ok
  else
    let* items := lift (to_tuple r) in
    let* item1 := lift (tuple_item items 1) in
    let* details := lift (asQString env item1) in
    let* item0 := lift (tuple_item items 0) in
    let* summary := lift (asQString env item0) in
    ret (JobResult.error summary details).

(** [m] throws no exception outside [E]. *)
Definition throws_only (E : CppException -> Prop) {A} (m : M A) : Prop :=
  forall st e, snd (m st) = Thrown e -> E e.

Definition never_throws {A} (m : M A) : Prop := throws_only (fun _ => False) m.

Definition is_error_already_set (e : CppException) : Prop :=
  match e with error_already_set _ => True | cast_error _ => False end.

(** ** A sample job

    A host without translations in which every path passes the pre-flight
    checks, and a job of the module directory [sample]. *)

Definition sample_env (script : GuestCode) : Env :=
  mkEnv (fun s => s)
        (fun _ => true) (fun _ => true) (fun _ => "sample")
        (fun dir file => dir +:+ "/" +:+ file)
        (fun _ => true) (fun _ => true) (fun _ => true) (fun path => path)
        None (fun _ => script) asQString_spec.

(** The same host without the working directory. *)
Definition sample_env_no_directory (script : GuestCode) : Env :=
  mkEnv (fun s => s)
        (fun _ => false) (fun _ => true) (fun _ => "sample")
        (fun dir file => dir +:+ "/" +:+ file)
        (fun _ => true) (fun _ => true) (fun _ => true) (fun path => path)
        None (fun _ => script) asQString_spec.

Definition sample_state : State :=
  mkState (mkPrivate "main.py" "/usr/lib/calamares/modules/sample" "") None ∅ [].

(** A script that only binds names at top level. *)
Definition module (bindings : list (string * PyValue)) : GuestCode :=
  mkGuestCode (map (fun b => OpBind (fst b) (snd b)) bindings) (PyReturn PyNone).

Definition def (result : PyResult) : PyValue := PyFunction [] result.

(** The state in which [exec] looks up [run], computed. *)
Definition loaded_state (env : Env) (st : State) : State :=
  fst (load env (m_d st) (initialized st)).

Definition entry_state (env : Env) (st : State) : State :=
  fst (describe (loaded_state env st)).

(** Scripts of the examples. *)

Definition script_run_ok : GuestCode :=
  module [("run", def (PyReturn PyNone))].

Definition script_run_raises : GuestCode :=
  module [("run", def (PyRaise "RuntimeError: no disk"))].

Definition script_run_pair : GuestCode :=
  module [("run", def (PyReturn (PyTuple [PyStr "No disk"; PyStr "No disk was found."])))].

Definition script_run_three : GuestCode :=
  module [("run", def (PyReturn (PyTuple [PyStr "a"; PyStr "b"; PyStr "c"])))].

Definition script_run_number : GuestCode :=
  module [("run", def (PyReturn (PyInt 1)))].

Definition script_no_run : GuestCode :=
  module [("__doc__", PyStr "Sets up the disk.
Then stops.")].

Definition script_pretty_name_raises : GuestCode :=
  module [("pretty_name", def (PyRaise "NameError: name '_' is not defined"));
          ("run", def (PyReturn PyNone))].

Definition script_one_line_doc : GuestCode :=
  module [("__doc__", PyStr "Installs the bootloader."); ("run", def (PyReturn PyNone))].

Definition script_load_raises : GuestCode :=
  mkGuestCode [] (PyRaise "SyntaxError: invalid syntax").

(** ** Notions of the further properties *)

(** [Job::Job]: a job is made from the script file and the working path,
    with an empty description. *)
Definition Job (script path : QString) : Private := mkPrivate script path "".

(** The namespace that guest operations leave. *)
Definition bind_op (g : gmap string PyValue) (op : GuestOp) : gmap string PyValue :=
  match op with
  | OpBind k v => <[k := v]> g
  | OpUnbind k => delete k g
  | OpSetProgress _ => g
  end.

Definition bindings_after (ops : list GuestOp) (g : gmap string PyValue) :
    gmap string PyValue :=
  fold_left bind_op ops g.

(** The progress signals that guest operations cause, in order. *)
Fixpoint progress_events (ops : list GuestOp) : list Event :=
  match ops with
  | [] => []
  | OpSetProgress v :: r => Progress ByEmitProgress v :: progress_events r
  | _ :: r => progress_events r
  end.

(** No translation catalogue is installed: [tr] gives the source text. *)
Definition untranslated (env : Env) : Prop := forall s, tr env s = s.

(** A text without a percent sign. *)
Fixpoint no_percent (s : string) : bool :=
  match s with
  | EmptyString => true
  | String c r => negb (Ascii.eqb c "%") && no_percent r
  end.

(** Every run of [m] takes a state to one that is [R]-related to it. *)
Definition steps (R : State -> State -> Prop) {A} (m : M A) : Prop :=
  forall st, R st (fst (m st)).

(** What [exec] never writes: the two paths of the job and the pre-script
    slot. *)
Definition same_job (st st' : State) : Prop :=
  scriptFile (m_d st') = scriptFile (m_d st) /\
  workingPath (m_d st') = workingPath (m_d st) /\
  s_preScript st' = s_preScript st.

Definition same_description (st st' : State) : Prop :=
  description (m_d st') = description (m_d st).

(** Two states in which guest code sees the same: the same pre-script and
    the same namespace. *)
Definition agree (st st' : State) : Prop :=
  s_preScript st = s_preScript st' /\ globals st = globals st'.



(** More scripts and states of the examples. *)

Definition script_titled : GuestCode :=
  module [("pretty_name", def (PyReturn (PyStr "Partitioning")));
          ("__doc__", PyStr "Partitions the disk.
Details follow.");
          ("run", PyFunction [OpSetProgress 0.5; OpSetProgress 1] (PyReturn PyNone))].

(** A job that has run before and holds a description. *)
Definition sample_state_described : State :=
  mkState (mkPrivate "main.py" "/usr/lib/calamares/modules/sample" "Old title")
          None ∅ [].

(** The operations of the pre-script, none when the slot is empty. *)
Definition pre_script_ops (st : State) : list GuestOp :=
  match s_preScript st with
  | Some script => code_ops script
  | None => []
  end.

Definition not_lifetime_event (ev : Event) : Prop :=
  match ev with
  | InterpreterInitialized | InterpreterFinalized => False
  | _ => True
  end.

Definition not_pre_script_event (ev : Event) : Prop :=
  match ev with
  | PreScriptExecuted => False
  | _ => True
  end.

Definition script_with_progress : GuestCode :=
  mkGuestCode [OpSetProgress 0.25; OpBind "run" (def (PyReturn PyNone))] (PyReturn PyNone).

Definition pre_script_sample : GuestCode :=
  mkGuestCode [OpBind "run" (def (PyReturn (PyTuple [PyStr "pre"; PyStr "script"])));
               OpBind "helper" (PyInt 1); OpSetProgress 0.1]
              (PyReturn PyNone).

Definition sample_env_no_import (script : GuestCode) : Env :=
  mkEnv (fun s => s)
        (fun _ => true) (fun _ => true) (fun _ => "sample")
        (fun dir file => dir +:+ "/" +:+ file)
        (fun _ => true) (fun _ => true) (fun _ => true) (fun path => path)
        (Some "ModuleNotFoundError: No module named 'libcalamares'")
        (fun _ => script) asQString_spec.

(** The first character of a text is a decimal digit. *)
Definition starts_with_digit (s : string) : bool :=
  match s with
  | EmptyString => false
  | String c _ => match Qt.digitValue c with Some _ => true | None => false end
  end.

(** A host whose working directories lie under a directory named with a
    place marker. *)
Definition sample_env_marker_path (script : GuestCode) : Env :=
  mkEnv (fun s => s)
        (fun _ => true) (fun _ => true) (fun _ => "sample")
        (fun dir file => "/mnt/%1/" +:+ file)
        (fun _ => true) (fun _ => true) (fun _ => true) (fun path => path)
        None (fun _ => script) asQString_spec.

(** The tokens of a text without place markers. *)
Fixpoint plain_tokens (s : string) : list Qt.ArgToken :=
  match s with
  | EmptyString => []
  | String c r => Qt.TChar c :: plain_tokens r
  end.

Definition starts_with_space (s : string) : bool :=
  match s with
  | EmptyString => false
  | String c _ => Qt.isSpace c
  end.

Definition script_renaming_doc : GuestCode :=
  module [("__doc__", PyStr "Old words.
More.");
          ("pretty_name",
           PyFunction [OpBind "__doc__" (PyStr "  New words.
More.")] (PyReturn (PyInt 0)));
          ("run", def (PyReturn PyNone))].

(** The sample host without the script file. *)
Definition sample_env_no_script (script : GuestCode) : Env :=
  mkEnv (fun s => s)
        (fun _ => true) (fun _ => true) (fun _ => "sample")
        (fun dir file => dir +:+ "/" +:+ file)
        (fun _ => true) (fun _ => false) (fun _ => true) (fun path => path)
        None (fun _ => script) asQString_spec.

Definition script_run_text : GuestCode :=
  module [("run", def (PyReturn (PyStr "No disk found")))].

(** * The model on small inputs *)

Example trimmed_both_ends : trimmed "  a b
 " = "a b".
Proof. reflexivity. Qed.

Example indexOf_absent : indexOf "010" "one line" = (-1)%Z.
Proof. reflexivity. Qed.

Example truncate_past_end : truncate 9 "short" = "short".
Proof. reflexivity. Qed.

Example arg_lowest_marker_first :
  arg "%2 then %1 then %2" "x" = "%2 then x then %2".
Proof. reflexivity. Qed.

Example arg_marker_inside_argument :
  arg (arg "file %1 job %2" "/tmp/%1/main.py") "x" = "file /tmp/x/main.py job %2".
Proof. reflexivity. Qed.

Example arg_no_marker : arg "100% L" "x" = "100% L".
Proof. reflexivity. Qed.

Example c_str_stops_at_nul : c_str (String "a" (String zero "b")) = "a".
Proof. reflexivity. Qed.

Example exec_trace_of_a_good_script :
  exec (sample_env script_run_ok) sample_state
  = (mkState (mkPrivate "main.py" "/usr/lib/calamares/modules/sample" "") None ∅
       [InterpreterInitialized; ModuleImported "libcalamares"; JobProxyConstructed;
        GlobalStorageProxyConstructed;
        FileEvaluated "/usr/lib/calamares/modules/sample/main.py";
        Lookup "pretty_name"; Lookup "__doc__"; Progress ByExec 0; Lookup "run";
        Called "run"; InterpreterFinalized],
     Returned JobResult.ok).
Proof. reflexivity. Qed.

Example exec_reports_a_list_like_a_tuple :
  snd (exec (sample_env (module [("run", def (PyReturn (PyList [PyStr "a"; PyStr "b"])))]))
         sample_state)
  = Returned (JobResult.error "a" "b").
Proof. reflexivity. Qed.

Example exec_reads_a_text_as_its_characters :
  snd (exec (sample_env (module [("run", def (PyReturn (PyStr "ab")))])) sample_state)
  = Returned (JobResult.error "a" "b").
Proof. reflexivity. Qed.

Example exec_uses_pretty_name :
  description
    (m_d (fst (exec (sample_env (module [("pretty_name", def (PyReturn (PyStr "Custom Title")));
                                        ("run", def (PyReturn PyNone))]))
                 sample_state)))
  = "Custom Title".
Proof. reflexivity. Qed.

(** * Facts about the Qt text operations *)

Section QtFacts.

Lemma append_cons (x : ascii) (a b : string) : String x a +:+ b = String x (a +:+ b).
Proof. reflexivity. Qed.

Lemma append_assoc (a b c : string) : (a +:+ b) +:+ c = a +:+ b +:+ c.
Proof.
  induction a as [|x a IH]; [reflexivity |].
  now rewrite !append_cons, IH.
Qed.

Lemma replaceEscapes_app m a ts1 ts2 :
  replaceEscapes m a (ts1 ++ ts2) = replaceEscapes m a ts1 +:+ replaceEscapes m a ts2.
Proof.
  induction ts1 as [|[c|n text] ts1 IH]; cbn [replaceEscapes app].
  - reflexivity.
  - now rewrite IH.
  - now rewrite IH, append_assoc.
Qed.

Lemma minEscape_attained ts m :
  minEscape ts = Some m -> exists ts1 text ts2, ts = ts1 ++ TEscape m text :: ts2.
Proof.
  revert m. induction ts as [|[c|n text] ts IH]; simpl; intros m Hm.
  - discriminate.
  - destruct (IH m Hm) as (ts1 & t & ts2 & ->). now exists (TChar c :: ts1), t, ts2.
  - destruct (minEscape ts) as [k|] eqn:Hk.
    + injection Hm as <-. destruct (Nat.min_dec n k) as [E|E]; rewrite E.
      * now exists [], text, ts.
      * destruct (IH k eq_refl) as (ts1 & t & ts2 & ->).
        now exists (TEscape n text :: ts1), t, ts2.
    + injection Hm as <-. now exists [], text, ts.
Qed.

Lemma arg_includes s a m :
  minEscape (argTokens s) = Some m -> includes a (arg s a).
Proof.
  intros Hm. unfold arg. rewrite Hm.
  destruct (minEscape_attained _ _ Hm) as (ts1 & text & ts2 & ->).
  rewrite replaceEscapes_app. cbn [replaceEscapes]. rewrite Nat.eqb_refl.
  now exists (replaceEscapes m a ts1), (replaceEscapes m a ts2).
Qed.
End QtFacts.

Section Markers.

Lemma minEscape_char c ts : minEscape (TChar c :: ts) = minEscape ts.
Proof. reflexivity. Qed.

Lemma minEscape_escape n text ts : minEscape (TEscape n text :: ts) <> None.
Proof. simpl. now destruct (minEscape ts). Qed.

Lemma argTokens_plain c r :
  Ascii.eqb c "%" = false -> argTokens (String c r) = TChar c :: argTokens r.
Proof. intros H. simpl. now rewrite H. Qed.

Lemma argTokens_percent_plain l r1 :
  Ascii.eqb l "L" = false -> digitValue l = None ->
  argTokens (String "%" (String l r1)) = TChar "%" :: argTokens (String l r1).
Proof. intros HL Hd. cbn [argTokens]. cbn [Ascii.eqb Bool.eqb negb]. now rewrite HL, Hd. Qed.

Lemma argTokens_percent_L_plain d1 r2 :
  digitValue d1 = None ->
  argTokens (String "%" (String "L" (String d1 r2)))
  = TChar "%" :: TChar "L" :: argTokens (String d1 r2).
Proof. intros Hd. cbn [argTokens]. cbn [Ascii.eqb Bool.eqb negb]. now rewrite Hd. Qed.

Lemma hasEscape_percent_digit l r1 n :
  digitValue l = Some n -> hasEscape (String "%" (String l r1)).
Proof.
  intros Hd. unfold hasEscape. cbn [argTokens]. cbn [Ascii.eqb Bool.eqb negb].
  destruct (Ascii.eqb l "L") eqn:HL.
  - apply Ascii.eqb_eq in HL. subst l. discriminate.
  - rewrite Hd. destruct r1 as [|d2 r2]; [apply minEscape_escape|].
    destruct (digitValue d2); apply minEscape_escape.
Qed.

Lemma hasEscape_percent_L_digit d1 r2 n :
  digitValue d1 = Some n -> hasEscape (String "%" (String "L" (String d1 r2))).
Proof.
  intros Hd. unfold hasEscape. cbn [argTokens]. cbn [Ascii.eqb Bool.eqb negb]. rewrite Hd.
  destruct r2 as [|d2 r3]; [apply minEscape_escape|].
  destruct (digitValue d2); apply minEscape_escape.
Qed.

Lemma hasEscape_suffix sp post :
  Ascii.eqb sp "L" = false -> digitValue sp = None ->
  hasEscape (String sp post) ->
  forall s, hasEscape (s +:+ String sp post).
Proof.
  intros HL Hd Hpost.
  enough (H : forall n s, String.length s <= n -> hasEscape (s +:+ String sp post))
    by (intros s; now apply (H (String.length s))).
  induction n as [|n IH]; intros s Hlen.
  - destruct s; [exact Hpost | simpl in Hlen; lia].
  - destruct s as [|c r]; [exact Hpost|]. rewrite append_cons.
    simpl in Hlen.
    destruct (Ascii.eqb c "%") eqn:Hc.
    + apply Ascii.eqb_eq in Hc. subst c.
      destruct r as [|l r1].
      * change ("" +:+ String sp post) with (String sp post).
        unfold hasEscape. now rewrite argTokens_percent_plain, minEscape_char.
      * rewrite append_cons. destruct (Ascii.eqb l "L") eqn:Hl.
        -- apply Ascii.eqb_eq in Hl. subst l. destruct r1 as [|d1 r2].
           ++ change ("" +:+ String sp post) with (String sp post).
              unfold hasEscape.
              now rewrite argTokens_percent_L_plain, !minEscape_char.
           ++ rewrite append_cons. destruct (digitValue d1) as [k|] eqn:Hd1.
              ** now apply hasEscape_percent_L_digit with k.
              ** unfold hasEscape.
                 rewrite argTokens_percent_L_plain, !minEscape_char by assumption.
                 rewrite <- append_cons. apply IH. simpl in *. lia.
        -- destruct (digitValue l) as [k|] eqn:Hdl.
           ++ now apply hasEscape_percent_digit with k.
           ++ unfold hasEscape.
              rewrite argTokens_percent_plain, minEscape_char by assumption.
              rewrite <- append_cons. apply IH. simpl in *. lia.
    + unfold hasEscape. rewrite argTokens_plain, minEscape_char by assumption.
      apply IH. lia.
Qed.

Lemma arg_arg_includes (pre post a b : QString) sp :
  Ascii.eqb sp "L" = false -> digitValue sp = None ->
  hasEscape (String sp post) ->
  includes b (arg (pre +:+ a +:+ String sp post) b).
Proof.
  intros HL Hd Hpost.
  destruct (minEscape (argTokens (pre +:+ a +:+ String sp post))) as [m|] eqn:Hm.
  - now apply arg_includes with m.
  - exfalso. rewrite <- append_assoc in Hm. now apply (hasEscape_suffix sp post HL Hd Hpost (pre +:+ a)).
Qed.

Lemma raised_message_names_job (path name : QString) :
  includes name
    (arg (arg "Main script file %1 for python job %2 raised an exception." path) name).
Proof.
  change (arg "Main script file %1 for python job %2 raised an exception." path)
    with ("Main script file " +:+ path +:+ " for python job %2 raised an exception.").
  apply arg_arg_includes; [reflexivity | reflexivity | vm_compute; discriminate].
Qed.
End Markers.

(** * What a stage adds to the trace *)

Section Traces.

Context (P : Event -> Prop).

Lemma extends_refl st : extends P st st.
Proof. exists []. split; [now rewrite app_nil_r | constructor]. Qed.

Lemma extends_same_trace st st' : trace st' = trace st -> extends P st st'.
Proof. intros H. exists []. split; [now rewrite app_nil_r | constructor]. Qed.

Lemma extends_trans st1 st2 st3 :
  extends P st1 st2 -> extends P st2 st3 -> extends P st1 st3.
Proof.
  intros (e1 & H1 & F1) (e2 & H2 & F2). exists (e1 ++ e2). split.
  - now rewrite H2, H1, app_assoc.
  - now apply Forall_app.
Qed.

Lemma extends_record ev st : P ev -> extends P st (record ev st).
Proof. intros H. exists [ev]. split; [reflexivity | now repeat constructor]. Qed.

Lemma adds_only_ret {A} (a : A) : adds_only P (ret a).
Proof. intros st. apply extends_refl. Qed.

Lemma adds_only_throw {A} e : adds_only P (@throw A e).
Proof. intros st. apply extends_refl. Qed.

Lemma adds_only_lift {A} (o : Outcome A) : adds_only P (lift o).
Proof. intros st. apply extends_refl. Qed.

Lemma adds_only_get_state : adds_only P get_state.
Proof. intros st. apply extends_refl. Qed.

Lemma adds_only_emit ev : P ev -> adds_only P (emit ev).
Proof. intros H st. now apply extends_record. Qed.

Lemma adds_only_bind {A B} (m : M A) (k : A -> M B) :
  adds_only P m -> (forall a, adds_only P (k a)) -> adds_only P (bind m k).
Proof.
  intros Hm Hk st. unfold bind. specialize (Hm st).
  destruct (m st) as [st' [a|e]]; simpl in *; [|exact Hm].
  eapply extends_trans; [exact Hm | apply Hk].
Qed.

Lemma adds_only_try_catch {A} (body : M A) (handlers : Handlers A) :
  adds_only P body ->
  (forall e h, handlers e = Some h -> adds_only P h) ->
  adds_only P (try_catch body handlers).
Proof.
  intros Hb Hh st. unfold try_catch. specialize (Hb st).
  destruct (body st) as [st' [a|e]]; simpl in *; [exact Hb|].
  destruct (handlers e) as [h|] eqn:E; simpl; [|exact Hb].
  eapply extends_trans; [exact Hb | now apply (Hh e h)].
Qed.

Lemma adds_only_catch_cast_error {A} (k : string -> M A) e h :
  (forall w, adds_only P (k w)) -> catch_cast_error k e = Some h -> adds_only P h.
Proof. intros Hk. destruct e; simpl; intros [= <-]. apply Hk. Qed.

Lemma adds_only_catch_error_already_set {A} (k : string -> M A) e h :
  (forall w, adds_only P (k w)) -> catch_error_already_set k e = Some h -> adds_only P h.
Proof. intros Hk. destruct e; simpl; intros [= <-]. apply Hk. Qed.

Lemma adds_only_or_catch {A} (h1 h2 : Handlers A) e h :
  (forall h', h1 e = Some h' -> adds_only P h') ->
  (forall h', h2 e = Some h' -> adds_only P h') ->
  or_catch h1 h2 e = Some h -> adds_only P h.
Proof.
  intros H1 H2. unfold or_catch. destruct (h1 e) as [m|] eqn:E.
  - intros [= <-]. now apply H1.
  - apply H2.
Qed.

Hypothesis guest_in_P : forall ev, guest_event ev -> P ev.

Lemma extends_run_ops ops st : extends P st (run_ops ops st).
Proof.
  revert st. induction ops as [|op ops IH]; intros st.
  - apply extends_refl.
  - change (run_ops (op :: ops) st) with (run_ops ops (run_op op st)).
    eapply extends_trans; [|apply IH].
    destruct op; simpl; try (now apply extends_same_trace).
    apply extends_record, guest_in_P. exact I.
Qed.

Lemma adds_only_run_ops ops : adds_only P (modify (run_ops ops)).
Proof. intros st. apply extends_run_ops. Qed.

Lemma adds_only_finish r : adds_only P (finish r).
Proof. destruct r; [apply adds_only_ret | apply adds_only_throw]. Qed.

Lemma adds_only_run_code c : adds_only P (run_code c).
Proof.
  apply adds_only_bind; [apply adds_only_run_ops | intros _; apply adds_only_finish].
Qed.

Lemma adds_only_call f : adds_only P (call f).
Proof.
  destruct f; try apply adds_only_throw.
  apply adds_only_bind; [apply adds_only_run_ops | intros _; apply adds_only_finish].
Qed.

Lemma adds_only_getitem k : adds_only P (getitem k).
Proof. intros st. unfold getitem, bind, get_state. destruct (globals st !! k); apply extends_refl. Qed.

Lemma adds_only_contains k : P (Lookup k) -> adds_only P (contains k).
Proof.
  intros H. apply adds_only_bind; [now apply adds_only_emit | intros _].
  apply adds_only_bind; [apply adds_only_get_state | intros st; apply adds_only_ret].
Qed.

Lemma adds_only_set_description q : adds_only P (modify (set_description q)).
Proof. intros st. now apply extends_same_trace. Qed.

End Traces.

Lemma extends_weaken (P Q : Event -> Prop) st st' :
  (forall ev, P ev -> Q ev) -> extends P st st' -> extends Q st st'.
Proof.
  intros H (evs & E & F). exists evs. split; [exact E|].
  eapply Forall_impl; [exact F | exact H].
Qed.

Create HintDb trace discriminated.
#[local] Hint Resolve adds_only_ret adds_only_throw adds_only_lift adds_only_get_state
  adds_only_emit adds_only_run_ops adds_only_finish adds_only_run_code adds_only_call
  adds_only_getitem adds_only_contains adds_only_set_description : trace.

Ltac trace_step :=
  match goal with
  | |- adds_only _ (bind _ _) => apply adds_only_bind; [|intros ?]
  | |- adds_only _ (try_catch _ _) => apply adds_only_try_catch; [|intros ? ?]
  | |- or_catch _ _ _ = Some _ -> _ => apply adds_only_or_catch; intros ?
  | |- catch_cast_error _ _ = Some _ -> _ => apply adds_only_catch_cast_error; intros ?
  | |- catch_error_already_set _ _ = Some _ -> _ =>
      apply adds_only_catch_error_already_set; intros ?
  | |- adds_only _ (emit _) => apply adds_only_emit; simpl; solve [auto]
  | |- adds_only _ (contains _) => apply adds_only_contains; simpl; solve [auto]
  | |- adds_only _ (match ?x with _ => _ end) => destruct x
  | |- adds_only _ (if ?x then _ else _) => destruct x
  | |- guest_event _ -> _ => let H := fresh in intros H
  | |- _ => solve [eauto with trace]
  | |- _ => solve [simpl; tauto]
  end.

Ltac trace_solve := repeat trace_step.

Section StageTraces.

Context (env : Env).

Lemma guest_is_load ev : guest_event ev -> load_event ev.
Proof. destruct ev; simpl; tauto. Qed.
Lemma guest_is_name ev : guest_event ev -> name_event ev.
Proof. destruct ev; simpl; tauto. Qed.
Lemma guest_is_entry ev : guest_event ev -> entry_event ev.
Proof. destruct ev; simpl; tauto. Qed.

#[local] Hint Resolve guest_is_load guest_is_name guest_is_entry : trace.

Lemma load_adds d : adds_only load_event (load env d).
Proof.
  unfold load, install_api, run_pre_script, load_script. trace_solve.
Qed.

Lemma getPrettyNameFromScope_adds : adds_only name_event getPrettyNameFromScope.
Proof.
  unfold getPrettyNameFromScope, name_from_pretty_name, name_from_doc. trace_solve.
Qed.

Lemma run_entry_adds d : adds_only entry_event (run_entry env d).
Proof.
  unfold run_entry, translate. trace_solve.
Qed.

End StageTraces.

(** * The shape of an execution *)

Ltac monad_unfold :=
  cbv beta iota delta
    [bind ret throw lift emit modify get_state try_catch contains getitem call finish
     run_code catch_cast_error catch_error_already_set or_catch scoped_interpreter].

Lemma globals_record ev st : globals (record ev st) = globals st.
Proof. reflexivity. Qed.

Ltac run_with H := repeat (progress (rewrite ?globals_record, ?H; cbv beta iota)).

Section ExecFacts.

Context (env : Env).

Lemma exec_checked st res :
  check_paths env (m_d st) = Some res -> exec env st = (st, Returned res).
Proof. intros H. unfold exec. monad_unfold. now rewrite H. Qed.

Lemma exec_interpreted st :
  check_paths env (m_d st) = None ->
  exec env st = (finalized (fst (interpreted env (m_d st) (initialized st))),
                 snd (interpreted env (m_d st) (initialized st))).
Proof.
  intros H. unfold exec. monad_unfold. rewrite H.
  now destruct (interpreted env (m_d st) (initialized st)).
Qed.

Lemma exec_entry st st2 :
  entry_reached env st st2 ->
  exec env st = (finalized (fst (run_entry env (m_d st) st2)),
                 snd (run_entry env (m_d st) st2)).
Proof.
  intros (st1 & [Hc Hl] & Hd). rewrite exec_interpreted by exact Hc.
  unfold interpreted, bind. rewrite Hl, Hd. reflexivity.
Qed.

Lemma run_entry_absent d st :
  globals st !! "run" = None ->
  run_entry env d st
  = (record (Lookup "run") st,
     Returned (JobResult.error
                 (tr env "Bad main script file")
                 (arg (arg (tr env "Main script file %1 for python job %2 does not contain a run() function.")
                           (scriptPath env d))
                      (prettyName env d)))).
Proof.
  intros H. unfold run_entry. monad_unfold. now run_with H.
Qed.

Lemma run_entry_none d st body :
  globals st !! "run" = Some (PyFunction body (PyReturn PyNone)) ->
  snd (run_entry env d st) = Returned JobResult.ok.
Proof.
  intros H. unfold run_entry, translate. monad_unfold. run_with H.
  reflexivity.
Qed.

End ExecFacts.

Section EntryFacts.

Context (env : Env).

Lemma run_entry_raises d st f :
  globals st !! "run" = Some f -> raises f ->
  snd (run_entry env d st)
  = Returned (JobResult.internalError
                (tr env "Bad main script file")
                (arg (arg (tr env "Main script file %1 for python job %2 raised an exception.")
                          (scriptPath env d))
                     (prettyName env d))
                JobResult.PythonUncaughtException).
Proof.
  intros H Hf. unfold run_entry. monad_unfold. run_with H.
  destruct f as [| | | | |body [v|w]]; try reflexivity. destruct Hf.
Qed.

Lemma translate_pure r st : translate env r st = (st, snd (translate env r st)).
Proof.
  unfold translate. monad_unfold. destruct (is_none r); [reflexivity|].
  destruct (to_tuple r) as [items|]; [|reflexivity].
  destruct (tuple_item items 0) as [i0|]; [|reflexivity].
  destruct (asQString env i0); [|reflexivity].
  destruct (tuple_item items 1) as [i1|]; [|reflexivity].
  now destruct (asQString env i1).
Qed.

Lemma run_entry_returns d st body r :
  globals st !! "run" = Some (PyFunction body (PyReturn r)) ->
  snd (run_entry env d st)
  = match snd (translate env r st) with
    | Returned res => Returned res
    | Thrown _ => Returned (invalid_results env d)
    end.
Proof.
  intros H. unfold run_entry. monad_unfold. run_with H.
  rewrite translate_pure.
  replace (snd (translate env r (run_ops body (record (Called "run") (record (Lookup "run") st)))))
    with (snd (translate env r st)).
  - now destruct (snd (translate env r st)) as [res|[w|w]].
  - unfold translate. monad_unfold. destruct (is_none r); [reflexivity|].
    destruct (to_tuple r) as [items|]; [|reflexivity].
    destruct (tuple_item items 0) as [i0|]; [|reflexivity].
    destruct (asQString env i0); [|reflexivity].
    destruct (tuple_item items 1) as [i1|]; [|reflexivity].
    now destruct (asQString env i1).
Qed.

Lemma translate_malformed r st :
  is_none r = false -> malformed env r ->
  exists e, snd (translate env r st) = Thrown e.
Proof.
  intros Hn Hm. unfold translate, malformed in *. monad_unfold. rewrite Hn.
  destruct (to_tuple r) as [items|e]; [|now exists e].
  destruct items as [|i0 [|i1 rest]]; cbn [tuple_item lookup list_lookup].
  - eexists; reflexivity.
  - destruct (asQString env i0); eexists; reflexivity.
  - destruct Hm as [[e He]|[e He]].
    + rewrite He. now exists e.
    + rewrite He. destruct (asQString env i0); eexists; reflexivity.
Qed.

Lemma translate_pair r st item0 item1 rest summary details :
  is_none r = false ->
  to_tuple r = Returned (item0 :: item1 :: rest) ->
  asQString env item0 = Returned summary ->
  asQString env item1 = Returned details ->
  snd (translate env r st) = Returned (JobResult.error summary details).
Proof.
  intros Hn Ht H0 H1. unfold translate. monad_unfold. rewrite Hn, Ht.
  cbn [tuple_item lookup list_lookup]. now rewrite H0, H1.
Qed.

(** The order in which the two arguments of [JobResult::error] are
    evaluated is not fixed by the language; the result of the try block
    does not depend on it. *)
Lemma translate_order d r st :
  try_catch (translate env r)
    (or_catch (catch_cast_error (fun _ => ret (invalid_results env d)))
              (catch_error_already_set (fun _ => ret (invalid_results env d)))) st
  = try_catch (translate_rev env r)
    (or_catch (catch_cast_error (fun _ => ret (invalid_results env d)))
              (catch_error_already_set (fun _ => ret (invalid_results env d)))) st.
Proof.
  unfold translate, translate_rev. monad_unfold. destruct (is_none r); [reflexivity|].
  destruct (to_tuple r) as [items|[w|w]]; try reflexivity.
  destruct (tuple_item items 0) as [i0|[w|w]], (tuple_item items 1) as [i1|[w'|w']];
    try reflexivity;
    try (destruct (asQString env i0) as [?|[?|?]]; reflexivity);
    try (destruct (asQString env i1) as [?|[?|?]]; reflexivity).
  destruct (asQString env i0) as [?|[?|?]], (asQString env i1) as [?|[?|?]]; reflexivity.
Qed.

End EntryFacts.

Section QtLines.

Lemma indexOf_lower c s : (-1 <= indexOf c s)%Z.
Proof.
  induction s as [|d r IH]; simpl; [lia|].
  destruct (Ascii.eqb d c); [lia|]. destruct (indexOf c r <? 0)%Z eqn:E; lia.
Qed.

Lemma indexOf_first c q rest :
  indexOf c q = (-1)%Z -> indexOf c (q +:+ String c rest) = Z.of_nat (String.length q).
Proof.
  induction q as [|d r IH]; intros H.
  - change ("" +:+ String c rest) with (String c rest). simpl. now rewrite Ascii.eqb_refl.
  - rewrite append_cons. simpl in *. destruct (Ascii.eqb d c); [lia|].
    destruct (indexOf c r <? 0)%Z eqn:E; [|lia].
    rewrite IH by (pose proof (indexOf_lower c r); lia).
    destruct (Z.of_nat (String.length r) <? 0)%Z eqn:E'; lia.
Qed.

Lemma leftChars_length q s : leftChars (String.length q) (q +:+ s) = q.
Proof.
  induction q as [|d r IH].
  - now destruct s.
  - rewrite append_cons. simpl. now rewrite IH.
Qed.

Lemma truncate_first_line q rest :
  indexOf "010" q = (-1)%Z ->
  truncate (indexOf "010" (q +:+ String "010" rest)) (q +:+ String "010" rest) = q.
Proof.
  intros H. rewrite indexOf_first by exact H. unfold truncate.
  now rewrite Nat2Z.id, leftChars_length.
Qed.

End QtLines.

Section NameFacts.

Lemma getPrettyNameFromScope_raises st f :
  globals st !! "pretty_name" = Some f -> raises f ->
  exists w,
    getPrettyNameFromScope st
    = ((match f with
        | PyFunction body _ => run_ops body
        | _ => fun s => s
        end) (record (Called "pretty_name") (record (Lookup "pretty_name") st)),
       Thrown (error_already_set w)).
Proof.
  intros H Hf. unfold getPrettyNameFromScope, name_from_pretty_name. monad_unfold.
  run_with H.
  destruct f as [| | | | |body [v|w]]; try (eexists; reflexivity). destruct Hf.
Qed.

Lemma name_from_doc_text st text :
  globals st !! "__doc__" = Some (PyStr text) ->
  name_from_doc st
  = (record (Lookup "__doc__") st,
     Returned
       (let string := Qt.trimmed (fromUtf8 (c_str text)) in
        if (Qt.indexOf "010" string >=? 0)%Z
        then Some (Qt.truncate (Qt.indexOf "010" string) string)
        else None)).
Proof.
  intros H. unfold name_from_doc. monad_unfold. run_with H.
  cbn [cast_std_string]. cbv zeta.
  now destruct (Qt.indexOf "010" (Qt.trimmed (fromUtf8 (c_str text))) >=? 0)%Z.
Qed.

Lemma getPrettyNameFromScope_doc st st' text :
  name_from_pretty_name st = (st', Returned None) ->
  globals st' !! "__doc__" = Some (PyStr text) ->
  getPrettyNameFromScope st
  = (record (Lookup "__doc__") st',
     Returned
       (let string := Qt.trimmed (fromUtf8 (c_str text)) in
        if (Qt.indexOf "010" string >=? 0)%Z
        then Qt.truncate (Qt.indexOf "010" string) string
        else "")).
Proof.
  intros Hn Hd. unfold getPrettyNameFromScope, bind. rewrite Hn.
  rewrite (name_from_doc_text _ _ Hd). cbv zeta.
  now destruct (Qt.indexOf "010" (Qt.trimmed (fromUtf8 (c_str text))) >=? 0)%Z.
Qed.

Lemma name_from_pretty_name_absent st :
  globals st !! "pretty_name" = None ->
  name_from_pretty_name st = (record (Lookup "pretty_name") st, Returned None).
Proof. intros H. unfold name_from_pretty_name. monad_unfold. now run_with H. Qed.

Lemma name_from_pretty_name_not_text st body v :
  globals st !! "pretty_name" = Some (PyFunction body (PyReturn v)) ->
  (forall s, v <> PyStr s) ->
  name_from_pretty_name st
  = (run_ops body (record (Called "pretty_name") (record (Lookup "pretty_name") st)),
     Returned None).
Proof.
  intros H Hv. unfold name_from_pretty_name. monad_unfold. run_with H.
  destruct v; try reflexivity. now destruct (Hv s).
Qed.

Lemma name_from_pretty_name_text st body s :
  globals st !! "pretty_name" = Some (PyFunction body (PyReturn (PyStr s))) ->
  getPrettyNameFromScope st
  = (run_ops body (record (Called "pretty_name") (record (Lookup "pretty_name") st)),
     Returned (fromUtf8 (c_str s))).
Proof.
  intros H. unfold getPrettyNameFromScope, name_from_pretty_name. monad_unfold.
  now run_with H.
Qed.

End NameFacts.

Section LoadFacts.

Context (env : Env).

Lemma exec_early st res :
  check_paths env (m_d st) = None ->
  snd (load env (m_d st) (initialized st)) = Returned (Some res) ->
  exec env st = (finalized (fst (load env (m_d st) (initialized st))), Returned res).
Proof.
  intros Hc Hl. rewrite exec_interpreted by exact Hc. unfold interpreted, bind.
  destruct (load env (m_d st) (initialized st)) as [st1 o]. simpl in Hl. now subst o.
Qed.

Lemma exec_escape st e :
  check_paths env (m_d st) = None ->
  snd (interpreted env (m_d st) (initialized st)) = Thrown e ->
  snd (exec env st) = Thrown e.
Proof. intros Hc Hi. now rewrite exec_interpreted. Qed.

Lemma load_setup_raises d st :
  import_libcalamares env = None ->
  ((exists script, s_preScript st = Some script /\ code_raises script) \/
   code_raises (file_code env (scriptPath env d))) ->
  exists summary details,
    snd (load env d st)
    = Returned (Some (JobResult.internalError summary details
                        JobResult.PythonUncaughtException)).
Proof.
  intros Hi Hr. unfold load, install_api, run_pre_script, load_script. monad_unfold.
  rewrite Hi. cbv beta iota. cbn [s_preScript record].
  destruct (s_preScript st) as [script|] eqn:Hs.
  - unfold code_raises in Hr. destruct (code_result script) as [v|w] eqn:Hres.
    + destruct Hr as [(script' & [= <-] & Hr)|Hr]; [now rewrite Hres in Hr|].
      destruct (code_result (file_code env (scriptPath env d))); [destruct Hr|].
      cbv beta iota. eexists _, _. reflexivity.
    + cbv beta iota. eexists _, _. reflexivity.
  - unfold code_raises in Hr. destruct Hr as [(script' & [=] & _)|Hr].
    destruct (code_result (file_code env (scriptPath env d))); [destruct Hr|].
    cbv beta iota. eexists _, _. reflexivity.
Qed.

Lemma exec_trace st :
  check_paths env (m_d st) = None ->
  forall P : Event -> Prop,
    P InterpreterInitialized -> P InterpreterFinalized ->
    extends P (initialized st) (fst (interpreted env (m_d st) (initialized st))) ->
    extends P st (fst (exec env st)).
Proof.
  intros Hc P Hi Hf (evs & E & F). rewrite exec_interpreted by exact Hc.
  exists (InterpreterInitialized :: evs ++ [InterpreterFinalized]). split.
  - cbn [fst finalized trace record set_globals]. rewrite E.
    cbn [initialized trace record set_globals]. now rewrite <- !app_assoc.
  - constructor; [exact Hi|]. apply Forall_app. split; [exact F|]. now repeat constructor.
Qed.

End LoadFacts.

Section Shapes.

Context (env : Env).

Lemma script_loaded_computed st :
  check_paths env (m_d st) = None ->
  snd (load env (m_d st) (initialized st)) = Returned None ->
  script_loaded env st (loaded_state env st).
Proof.
  intros Hc Hl. split; [exact Hc|]. unfold loaded_state.
  destruct (load env (m_d st) (initialized st)) as [s o]. simpl in *. now subst o.
Qed.

Lemma entry_reached_computed st :
  check_paths env (m_d st) = None ->
  snd (load env (m_d st) (initialized st)) = Returned None ->
  snd (describe (loaded_state env st)) = Returned tt ->
  entry_reached env st (entry_state env st).
Proof.
  intros Hc Hl Hd. exists (loaded_state env st). split.
  - now apply script_loaded_computed.
  - unfold entry_state. destruct (describe (loaded_state env st)) as [s o].
    simpl in *. now subst o.
Qed.

Lemma scoped_extends (P : Event -> Prop) st st' :
  P InterpreterInitialized -> P InterpreterFinalized ->
  extends P (initialized st) st' -> extends P st (finalized st').
Proof.
  intros Hi Hf (evs & E & F).
  exists (InterpreterInitialized :: evs ++ [InterpreterFinalized]). split.
  - cbn [finalized trace record set_globals]. rewrite E.
    cbn [initialized trace record set_globals]. now rewrite <- !app_assoc.
  - constructor; [exact Hi|]. apply Forall_app. split; [exact F|]. now repeat constructor.
Qed.

Lemma script_loaded_extends st st1 :
  script_loaded env st st1 -> extends load_event (initialized st) st1.
Proof.
  intros [_ Hl]. pose proof (load_adds env (m_d st) (initialized st)) as H.
  now rewrite Hl in H.
Qed.

Lemma run_entry_trace d st :
  exists post,
    trace (fst (run_entry env d st)) = trace st ++ Lookup "run" :: post /\
    Forall entry_event post.
Proof.
  unfold run_entry.
  match goal with |- context [bind (contains "run") ?k] => set (rest := k) end.
  assert (Hk : forall b, adds_only entry_event (rest b)).
  { intros b. subst rest. cbv beta. unfold translate. trace_solve;
      eauto using guest_is_entry with trace. }
  destruct (Hk (match globals st !! "run" with Some _ => true | None => false end)
               (record (Lookup "run") st)) as (post & E & F).
  exists post. split; [|exact F].
  unfold contains. monad_unfold. rewrite globals_record. cbv beta iota.
  rewrite E. cbn [trace record]. now rewrite <- app_assoc.
Qed.

End Shapes.

(** * Which exceptions leave the adapter *)

Section Throws.

Lemma throws_only_ret (E : CppException -> Prop) {A} (a : A) : throws_only E (ret a).
Proof. intros st e H. discriminate. Qed.

Lemma throws_only_throw (E : CppException -> Prop) {A} e : E e -> throws_only E (@throw A e).
Proof. intros He st e' [= <-]. exact He. Qed.

Lemma throws_only_modify (E : CppException -> Prop) f : throws_only E (modify f).
Proof. intros st e H. discriminate. Qed.



Lemma throws_only_bind (E : CppException -> Prop) {A B} (m : M A) (k : A -> M B) :
  throws_only E m -> (forall a, throws_only E (k a)) -> throws_only E (bind m k).
Proof.
  intros Hm Hk st e. unfold bind. specialize (Hm st).
  destruct (m st) as [st' [a|e']]; simpl in *.
  - apply Hk.
  - intros [= <-]. now apply Hm.
Qed.


Lemma throws_only_weaken (E E' : CppException -> Prop) {A} (m : M A) :
  (forall e, E e -> E' e) -> throws_only E m -> throws_only E' m.
Proof. intros H Hm st e He. apply H. now apply (Hm st). Qed.

Lemma throws_only_finish r : throws_only is_error_already_set (finish r).
Proof. destruct r; [apply throws_only_ret | now apply throws_only_throw]. Qed.


Lemma throws_only_call f : throws_only is_error_already_set (call f).
Proof.
  destruct f; try (now apply throws_only_throw).
  apply throws_only_bind; [apply throws_only_modify | intros _; apply throws_only_finish].
Qed.

Lemma call_returns f : ~ raises f -> never_throws (call f).
Proof.
  destruct f as [| | | | |body [v|w]]; simpl; intros H; try (now destruct H).
  intros st e. unfold call. monad_unfold. discriminate.
Qed.

Lemma never_throws_contains k : never_throws (contains k).
Proof. intros st e H. discriminate. Qed.

Lemma throws_only_getitem k : throws_only is_error_already_set (getitem k).
Proof.
  intros st e. unfold getitem. monad_unfold. destruct (globals st !! k); [discriminate|].
  now intros [= <-].
Qed.

Lemma throws_only_lift {A} (E : CppException -> Prop) (o : Outcome A) :
  (forall e, o = Thrown e -> E e) -> throws_only E (lift o).
Proof. intros H st e He. now apply H. Qed.

End Throws.

Section NeverThrows.

Context (env : Env).






End NeverThrows.

Section Propagation.

Context (env : Env).




Lemma adds_only_weaken (P Q : Event -> Prop) {A} (m : M A) :
  (forall ev, P ev -> Q ev) -> adds_only P m -> adds_only Q m.
Proof. intros H Hm st. eapply extends_weaken; [exact H | apply Hm]. Qed.

Lemma interpreted_adds d : adds_only (fun _ => True) (interpreted env d).
Proof.
  unfold interpreted, describe.
  apply adds_only_bind; [apply (adds_only_weaken load_event); [easy | apply load_adds]|].
  intros [res|]; [apply adds_only_ret|].
  apply adds_only_bind; [|intros _].
  - apply adds_only_bind;
      [apply (adds_only_weaken name_event); [easy | apply getPrettyNameFromScope_adds]|].
    intros q. apply adds_only_bind; [apply adds_only_set_description | intros _].
    now apply adds_only_emit.
  - apply (adds_only_weaken entry_event); [easy | apply run_entry_adds].
Qed.

(** The interpreter that [exec] started is released on every way out. *)
Lemma exec_releases_interpreter st :
  check_paths env (m_d st) = None ->
  exists evs,
    trace (fst (exec env st))
    = trace st ++ InterpreterInitialized :: evs ++ [InterpreterFinalized].
Proof.
  intros Hc. rewrite exec_interpreted by exact Hc. cbn [fst].
  destruct (interpreted_adds (m_d st) (initialized st)) as (evs & E & _).
  exists evs. cbn [finalized trace record set_globals]. rewrite E.
  cbn [initialized trace record set_globals]. now rewrite <- !app_assoc.
Qed.

End Propagation.

(** * The claims *)

(** C1, where the code departs from the claim. A guest exception raised by the call
    of [pretty_name] during description derivation is not turned into a
    job result: whenever the script has loaded and [pretty_name] is bound to
    something whose call raises, [exec] ends with the guest's
    [py::error_already_set] thrown to its caller. *)
Theorem pretty_name_exception_escapes (env : Env) (st st1 : State) (f : PyValue) :
  script_loaded env st st1 ->
  globals st1 !! "pretty_name" = Some f ->
  raises f ->
  exists what, snd (exec env st) = Thrown (error_already_set what).
Proof.
  intros [Hc Hl] Hf Hr.
  destruct (getPrettyNameFromScope_raises st1 f Hf Hr) as (w & Hn).
  exists w. apply exec_escape; [exact Hc|].
  unfold interpreted, bind. rewrite Hl. unfold describe, bind. now rewrite Hn.
Qed.

Lemma pretty_name_exception_escapes_witness :
  script_loaded (sample_env script_pretty_name_raises) sample_state
    (loaded_state (sample_env script_pretty_name_raises) sample_state) /\
  exists what,
    snd (exec (sample_env script_pretty_name_raises) sample_state)
    = Thrown (error_already_set what).
Proof.
  assert (H : script_loaded (sample_env script_pretty_name_raises) sample_state
                (loaded_state (sample_env script_pretty_name_raises) sample_state))
    by (apply script_loaded_computed; reflexivity).
  split; [exact H|].
  apply (pretty_name_exception_escapes _ _ _
           (def (PyRaise "NameError: name '_' is not defined")) H);
    [reflexivity | exact I].
Defined.

(** C2, as stated, fails: a script without [run] and without
    [pretty_name] loads, and the error that [exec] returns does not have
    the summary "missing entry point". *)
Lemma missing_run_summary_counterexample :
  entry_reached (sample_env script_no_run) sample_state
    (entry_state (sample_env script_no_run) sample_state) /\
  globals (entry_state (sample_env script_no_run) sample_state) !! "run" = None /\
  forall details,
    snd (exec (sample_env script_no_run) sample_state)
    <> Returned (JobResult.error "missing entry point" details).
Proof.
  split; [apply entry_reached_computed; reflexivity|].
  split; [reflexivity|].
  intros details. vm_compute. discriminate.
Qed.

(** C2 (amended). Whenever the script has loaded, the description has been
    derived and no [run] is bound at top level, [exec] returns an error
    whose summary is the text "Bad main script file" and whose details are
    the message that the script does not contain a run() function, with
    the script path and the job name filled in - whatever [pretty_name]
    and [__doc__] are. *)
Theorem missing_run_is_reported (env : Env) (st st2 : State) :
  entry_reached env st st2 ->
  globals st2 !! "run" = None ->
  snd (exec env st)
  = Returned
      (JobResult.error
         (tr env "Bad main script file")
         (Qt.arg (Qt.arg (tr env "Main script file %1 for python job %2 does not contain a run() function.")
                         (scriptPath env (m_d st)))
                 (prettyName env (m_d st)))).
Proof.
  intros He Hr. rewrite (exec_entry env st st2 He).
  now rewrite run_entry_absent.
Qed.

Lemma missing_run_is_reported_witness :
  snd (exec (sample_env script_no_run) sample_state)
  = Returned
      (JobResult.error
         "Bad main script file"
         "Main script file /usr/lib/calamares/modules/sample/main.py for python job sample does not contain a run() function.").
Proof.
  apply (missing_run_is_reported (sample_env script_no_run) sample_state
           (entry_state (sample_env script_no_run) sample_state)).
  - apply entry_reached_computed; reflexivity.
  - reflexivity.
Defined.

(** C3, as stated, fails: [run()] returns a sequence of three texts, and
    [exec] reports the first two of them instead of invalid results. *)
Lemma three_element_result_counterexample :
  entry_reached (sample_env script_run_three) sample_state
    (entry_state (sample_env script_run_three) sample_state) /\
  globals (entry_state (sample_env script_run_three) sample_state) !! "run"
  = Some (def (PyReturn (PyTuple [PyStr "a"; PyStr "b"; PyStr "c"]))) /\
  (forall s d, to_tuple (PyTuple [PyStr "a"; PyStr "b"; PyStr "c"])
               <> Returned [PyStr s; PyStr d]) /\
  snd (exec (sample_env script_run_three) sample_state)
  = Returned (JobResult.error "a" "b") /\
  JobResult.error "a" "b"
  <> invalid_results (sample_env script_run_three) (m_d sample_state) /\
  forall details, JobResult.error "a" "b" <> JobResult.error "invalid results" details.
Proof.
  split; [apply entry_reached_computed; reflexivity|].
  split; [reflexivity|].
  split; [intros s d; discriminate|].
  split; [reflexivity|].
  split; [vm_compute; discriminate | intros details; discriminate].
Qed.

(** C3 (amended). When [run()] returns a value other than "no value"
    that cannot be iterated, has fewer than two elements, or has a first
    or second element that does not convert to text, [exec] returns the
    invalid-results error: summary "Bad main script file", details
    "... returned invalid results.". A sequence whose first two elements
    convert is reported with these two texts, however many elements
    follow. *)
Theorem malformed_result_is_reported (env : Env) (st st2 : State)
    (body : list GuestOp) (r : PyValue) :
  entry_reached env st st2 ->
  globals st2 !! "run" = Some (PyFunction body (PyReturn r)) ->
  is_none r = false ->
  (malformed env r ->
   snd (exec env st) = Returned (invalid_results env (m_d st))) /\
  (forall item0 item1 rest summary details,
     to_tuple r = Returned (item0 :: item1 :: rest) ->
     asQString env item0 = Returned summary ->
     asQString env item1 = Returned details ->
     snd (exec env st) = Returned (JobResult.error summary details)).
Proof.
  intros He Hr Hn. rewrite (exec_entry env st st2 He). cbn [snd].
  rewrite (run_entry_returns env _ _ _ _ Hr). split.
  - intros Hm. destruct (translate_malformed env r st2 Hn Hm) as [e ->]. reflexivity.
  - intros item0 item1 rest summary details Ht H0 H1.
    now rewrite (translate_pair env r st2 _ _ _ _ _ Hn Ht H0 H1).
Qed.

Lemma malformed_result_is_reported_witness :
  snd (exec (sample_env script_run_number) sample_state)
  = Returned
      (JobResult.error
         "Bad main script file"
         "Main script file /usr/lib/calamares/modules/sample/main.py for python job sample returned invalid results.").
Proof.
  apply (malformed_result_is_reported (sample_env script_run_number) sample_state
           (entry_state (sample_env script_run_number) sample_state) [] (PyInt 1)).
  - apply entry_reached_computed; reflexivity.
  - reflexivity.
  - reflexivity.
  - exact I.
Defined.

(** C4. When [run()] returns a two-element sequence of texts, [exec]
    returns an error with element 0 as the summary and element 1 as the
    details, both unchanged - given that the conversion helper hands a
    text over as it is, which is what the spec says of it. *)
Theorem text_pair_is_reported (env : Env) (st st2 : State)
    (body : list GuestOp) (r : PyValue) (summary details : string) :
  (forall s, asQString env (PyStr s) = Returned s) ->
  entry_reached env st st2 ->
  globals st2 !! "run" = Some (PyFunction body (PyReturn r)) ->
  to_tuple r = Returned [PyStr summary; PyStr details] ->
  snd (exec env st) = Returned (JobResult.error summary details).
Proof.
  intros Ha He Hr Ht. rewrite (exec_entry env st st2 He). cbn [snd].
  rewrite (run_entry_returns env _ _ _ _ Hr).
  assert (Hn : is_none r = false) by (destruct r; try reflexivity; discriminate).
  now rewrite (translate_pair env r st2 _ _ _ _ _ Hn Ht (Ha summary) (Ha details)).
Qed.

Lemma text_pair_is_reported_witness :
  snd (exec (sample_env script_run_pair) sample_state)
  = Returned (JobResult.error "No disk" "No disk was found.").
Proof.
  apply (text_pair_is_reported (sample_env script_run_pair) sample_state
           (entry_state (sample_env script_run_pair) sample_state) []
           (PyTuple [PyStr "No disk"; PyStr "No disk was found."])).
  - intros s. reflexivity.
  - apply entry_reached_computed; reflexivity.
  - reflexivity.
  - reflexivity.
Defined.

(** C5. When [run()] returns "no value", [exec] returns success. *)
Theorem no_value_is_success (env : Env) (st st2 : State) (body : list GuestOp) :
  entry_reached env st st2 ->
  globals st2 !! "run" = Some (PyFunction body (PyReturn PyNone)) ->
  snd (exec env st) = Returned JobResult.ok.
Proof.
  intros He Hr. rewrite (exec_entry env st st2 He). cbn [snd].
  now apply run_entry_none with body.
Qed.

Lemma no_value_is_success_witness :
  snd (exec (sample_env script_run_ok) sample_state) = Returned JobResult.ok.
Proof.
  apply (no_value_is_success (sample_env script_run_ok) sample_state
           (entry_state (sample_env script_run_ok) sample_state) []).
  - apply entry_reached_computed; reflexivity.
  - reflexivity.
Defined.

(** C6. When the call of [run] raises, [exec] returns an internal error
    with the cause-code [PythonUncaughtException] (uncaught guest
    exception). Its text, the details, includes the job's pretty name,
    whatever the script path and the name are, as long as the translation
    in use leaves the message as it is in the source. *)
Theorem run_exception_is_internal_error (env : Env) (st st2 : State) (f : PyValue) :
  entry_reached env st st2 ->
  globals st2 !! "run" = Some f ->
  raises f ->
  exists summary details,
    snd (exec env st)
    = Returned (JobResult.internalError summary details JobResult.PythonUncaughtException) /\
    (tr env "Main script file %1 for python job %2 raised an exception."
     = "Main script file %1 for python job %2 raised an exception." ->
     Qt.includes (prettyName env (m_d st)) details).
Proof.
  intros He Hr Hf. rewrite (exec_entry env st st2 He). cbn [snd].
  rewrite (run_entry_raises env _ _ _ Hr Hf). eexists _, _. split; [reflexivity|].
  intros Ht. rewrite Ht. apply raised_message_names_job.
Qed.

Lemma run_exception_is_internal_error_witness :
  exists summary details,
    snd (exec (sample_env script_run_raises) sample_state)
    = Returned (JobResult.internalError summary details JobResult.PythonUncaughtException) /\
    Qt.includes "sample" details.
Proof.
  destruct (run_exception_is_internal_error (sample_env script_run_raises) sample_state
              (entry_state (sample_env script_run_raises) sample_state)
              (def (PyRaise "RuntimeError: no disk")))
    as (summary & details & Hres & Hname).
  - apply entry_reached_computed; reflexivity.
  - reflexivity.
  - exact I.
  - exists summary, details. split; [exact Hres|]. apply Hname. reflexivity.
Defined.

(** C7, where the code departs from the claim. A [__doc__] text without a newline
    gives no description: when [pretty_name] is not usable and the trimmed
    [__doc__] text contains no newline, [getPrettyNameFromScope] returns the
    empty text, also when the [__doc__] text is not empty. *)
Theorem one_line_doc_gives_no_description (st st' : State) (text : string) :
  name_from_pretty_name st = (st', Returned None) ->
  globals st' !! "__doc__" = Some (PyStr text) ->
  Qt.indexOf "010" (Qt.trimmed (fromUtf8 (c_str text))) = (-1)%Z ->
  snd (getPrettyNameFromScope st) = Returned "".
Proof.
  intros Hn Hd Hi. rewrite (getPrettyNameFromScope_doc st st' text Hn Hd).
  cbv zeta. now rewrite Hi.
Qed.

Lemma one_line_doc_gives_no_description_witness :
  Qt.trimmed (fromUtf8 (c_str "Installs the bootloader.")) = "Installs the bootloader." /\
  snd (getPrettyNameFromScope (loaded_state (sample_env script_one_line_doc) sample_state))
  = Returned "".
Proof.
  split; [reflexivity|].
  apply (one_line_doc_gives_no_description
           (loaded_state (sample_env script_one_line_doc) sample_state)
           (fst (name_from_pretty_name
                   (loaded_state (sample_env script_one_line_doc) sample_state)))
           "Installs the bootloader.").
  - reflexivity.
  - reflexivity.
  - reflexivity.
Defined.

(** The part of C7 that the code does: a [__doc__] text whose trimmed form
    has a newline gives the text before the first newline. *)
Lemma first_line_of_doc (st st' : State) (text line rest : string) :
  name_from_pretty_name st = (st', Returned None) ->
  globals st' !! "__doc__" = Some (PyStr text) ->
  Qt.trimmed (fromUtf8 (c_str text)) = line +:+ String "010" rest ->
  Qt.indexOf "010" line = (-1)%Z ->
  snd (getPrettyNameFromScope st) = Returned line.
Proof.
  intros Hn Hd Ht Hl. rewrite (getPrettyNameFromScope_doc st st' text Hn Hd).
  cbv zeta. rewrite Ht, (truncate_first_line line rest Hl), indexOf_first by exact Hl.
  cbn [snd]. destruct (Z.of_nat (String.length line) >=? 0)%Z eqn:E; [reflexivity|].
  rewrite Z.geb_leb in E. apply Z.leb_gt in E. lia.
Qed.

Example description_of_two_line_doc :
  description (m_d (fst (exec (sample_env script_no_run) sample_state)))
  = "Sets up the disk.".
Proof. reflexivity. Qed.

Example description_of_one_line_doc :
  description (m_d (fst (exec (sample_env script_one_line_doc) sample_state))) = "" /\
  prettyStatusMessage (sample_env script_one_line_doc)
    (m_d (fst (exec (sample_env script_one_line_doc) sample_state)))
  = "Running sample operation.".
Proof. split; reflexivity. Qed.

(** C8. A working directory that does not exist or is not readable, and a
    script path that does not exist, is not a file or is not readable,
    make [exec] return a plain error and leave the state as it was: no
    interpreter has been started and no proxy has been constructed. *)
Theorem bad_paths_are_plain_errors (env : Env) (st : State) :
  dir_exists env (workingPath (m_d st)) = false \/
  dir_isReadable env (workingPath (m_d st)) = false \/
  file_exists env
    (dir_absoluteFilePath env (workingPath (m_d st)) (scriptFile (m_d st))) = false \/
  file_isFile env
    (dir_absoluteFilePath env (workingPath (m_d st)) (scriptFile (m_d st))) = false \/
  file_isReadable env
    (dir_absoluteFilePath env (workingPath (m_d st)) (scriptFile (m_d st))) = false ->
  exists summary details,
    exec env st = (st, Returned (JobResult.error summary details)).
Proof.
  intros H.
  assert (Hc : exists summary details,
             check_paths env (m_d st) = Some (JobResult.error summary details)).
  { unfold check_paths.
    destruct (negb (dir_exists env (workingPath (m_d st)))
              || negb (dir_isReadable env (workingPath (m_d st)))) eqn:Hdir;
      [eexists _, _; reflexivity|].
    apply orb_false_elim in Hdir as [He Hr].
    apply negb_false_iff in He, Hr.
    destruct H as [H|[H|H]]; [congruence | congruence |].
    destruct (negb (file_exists env _) || negb (file_isFile env _)
              || negb (file_isReadable env _)) eqn:Hfile;
      [eexists _, _; reflexivity|].
    apply orb_false_elim in Hfile as [Hfile Hfr].
    apply orb_false_elim in Hfile as [Hfe Hff].
    apply negb_false_iff in Hfe, Hff, Hfr.
    destruct H as [H|[H|H]]; congruence. }
  destruct Hc as (summary & details & Hc). exists summary, details.
  now apply exec_checked.
Qed.

Lemma bad_paths_are_plain_errors_witness :
  exists summary details,
    exec (sample_env_no_directory script_run_ok) sample_state
    = (sample_state, Returned (JobResult.error summary details)).
Proof.
  apply (bad_paths_are_plain_errors (sample_env_no_directory script_run_ok) sample_state).
  left. reflexivity.
Defined.

(** C9. When the pre-script raises, or the script raises while it is
    loaded, [exec] returns an internal error with the cause-code
    [PythonUncaughtException], and neither looks up nor calls [run]. *)
Theorem setup_exception_is_internal_error (env : Env) (st : State) :
  check_paths env (m_d st) = None ->
  import_libcalamares env = None ->
  setup_raises env st ->
  exists summary details evs,
    snd (exec env st)
    = Returned (JobResult.internalError summary details JobResult.PythonUncaughtException) /\
    trace (fst (exec env st)) = trace st ++ evs /\
    ~ In (Lookup "run") evs /\ ~ In (Called "run") evs.
Proof.
  intros Hc Hi Hr.
  destruct (load_setup_raises env (m_d st) (initialized st) Hi Hr) as (summary & details & Hl).
  rewrite (exec_early env st _ Hc Hl). cbn [fst snd].
  assert (He : extends (fun ev => ev <> Lookup "run" /\ ev <> Called "run") st
                 (finalized (fst (load env (m_d st) (initialized st))))).
  { apply scoped_extends; [split; discriminate | split; discriminate |].
    eapply extends_weaken; [|apply load_adds].
    intros ev. destruct ev as [| | | | | | | | |[]]; simpl; intros H;
      solve [split; discriminate | destruct H]. }
  destruct He as (evs & E & F). exists summary, details, evs.
  split; [reflexivity|]. split; [exact E|].
  rewrite Forall_forall in F.
  split; intros Hin; apply list_elem_of_In in Hin; destruct (F _ Hin) as [H1 H2]; congruence.
Qed.

Lemma setup_exception_is_internal_error_witness :
  exists summary details evs,
    snd (exec (sample_env script_load_raises) sample_state)
    = Returned (JobResult.internalError summary details JobResult.PythonUncaughtException) /\
    trace (fst (exec (sample_env script_load_raises) sample_state))
    = trace sample_state ++ evs /\
    ~ In (Lookup "run") evs /\ ~ In (Called "run") evs.
Proof.
  apply (setup_exception_is_internal_error (sample_env script_load_raises) sample_state).
  - reflexivity.
  - reflexivity.
  - right. exact I.
Defined.

(** C10, where the code departs from the claim. When the script has loaded and the
    call of [pretty_name] raises, [exec] ends without its progress signal:
    no event of the execution is a progress emitted by [exec] itself. *)
Theorem progress_zero_lost_with_pretty_name_exception (env : Env) (st st1 : State)
    (f : PyValue) :
  script_loaded env st st1 ->
  globals st1 !! "pretty_name" = Some f ->
  raises f ->
  exists evs,
    trace (fst (exec env st)) = trace st ++ evs /\
    forall value, ~ In (Progress ByExec value) evs.
Proof.
  intros Hs Hf Hr.
  destruct (getPrettyNameFromScope_raises st1 f Hf Hr) as (w & Hn).
  pose proof (script_loaded_extends env st st1 Hs) as Hload.
  pose proof (getPrettyNameFromScope_adds st1) as Hname. rewrite Hn in Hname. cbn [fst] in Hname.
  destruct Hs as [Hc Hl].
  assert (He : extends not_by_exec st (fst (exec env st))).
  { rewrite exec_interpreted by exact Hc. cbn [fst].
    apply scoped_extends; [exact I | exact I |].
    unfold interpreted, bind. rewrite Hl. unfold describe, bind. rewrite Hn. cbn [fst].
    eapply extends_trans.
    - eapply extends_weaken; [|exact Hload].
      intros ev. destruct ev as [| | | | | | | | |[]]; simpl; tauto.
    - eapply extends_weaken; [|exact Hname].
      intros ev. destruct ev as [| | | | | | | | |[]]; simpl; tauto. }
  destruct He as (evs & E & F). exists evs. split; [exact E|].
  intros value Hin. rewrite Forall_forall in F.
  apply list_elem_of_In in Hin. exact (F _ Hin).
Qed.

Lemma progress_zero_lost_with_pretty_name_exception_witness :
  exists evs,
    trace (fst (exec (sample_env script_pretty_name_raises) sample_state))
    = trace sample_state ++ evs /\
    forall value, ~ In (Progress ByExec value) evs.
Proof.
  apply (progress_zero_lost_with_pretty_name_exception
           (sample_env script_pretty_name_raises) sample_state
           (loaded_state (sample_env script_pretty_name_raises) sample_state)
           (def (PyRaise "NameError: name '_' is not defined"))).
  - apply script_loaded_computed; reflexivity.
  - reflexivity.
  - exact I.
Defined.

(** What the code does for C10 when the description has been derived:
    the trace of [exec] has the progress 0 of [exec] right before the
    lookup of [run], and no other progress signal of [exec]. *)
Lemma progress_zero_before_entry (env : Env) (st st1 st2 : State) (q : string) :
  script_loaded env st st1 ->
  getPrettyNameFromScope st1 = (st2, Returned q) ->
  exists pre post,
    trace (fst (exec env st))
    = trace st ++ pre ++ Progress ByExec 0 :: Lookup "run" :: post /\
    Forall not_by_exec pre /\ Forall not_by_exec post.
Proof.
  intros Hs Hn.
  pose proof (script_loaded_extends env st st1 Hs) as (e1 & E1 & F1).
  pose proof (getPrettyNameFromScope_adds st1) as Hname. rewrite Hn in Hname.
  destruct Hname as (e2 & E2 & F2). cbn [fst] in E2.
  destruct Hs as [Hc Hl].
  rewrite exec_interpreted by exact Hc. cbn [fst].
  unfold interpreted, bind. rewrite Hl. unfold describe, bind. rewrite Hn.
  unfold modify, emit, modify.
  destruct (run_entry_trace env (m_d st)
              (record (Progress ByExec 0) (set_description q st2))) as (post & E3 & F3).
  exists (InterpreterInitialized :: e1 ++ e2), (post ++ [InterpreterFinalized]).
  split; [|split].
  - cbn [finalized trace record set_globals]. rewrite E3.
    cbn [trace record set_description]. rewrite E2, E1.
    cbn [initialized trace record set_globals].
    rewrite <- !app_assoc. cbn [app]. now rewrite <- !app_assoc.
  - constructor; [exact I|]. apply Forall_app. split.
    + eapply Forall_impl; [exact F1|].
      intros ev. destruct ev as [| | | | | | | | |[]]; simpl; tauto.
    + eapply Forall_impl; [exact F2|].
      intros ev. destruct ev as [| | | | | | | | |[]]; simpl; tauto.
  - apply Forall_app. split; [|now repeat constructor].
    eapply Forall_impl; [exact F3|].
    intros ev. destruct ev as [| | | | | | | | |[]]; simpl; tauto.
Qed.

(** * Further properties of the adapter *)

(** ** What a stage leaves as it is *)

Section Steps.

Context (R : State -> State -> Prop).
Hypothesis R_refl : forall st, R st st.
Hypothesis R_trans : forall a b c, R a b -> R b c -> R a c.
Hypothesis R_record : forall ev st, R st (record ev st).
Hypothesis R_globals : forall g st, R st (set_globals g st).

Lemma steps_ret {A} (a : A) : steps R (ret a).
Proof. intros st. apply R_refl. Qed.

Lemma steps_throw {A} e : steps R (@throw A e).
Proof. intros st. apply R_refl. Qed.

Lemma steps_lift {A} (o : Outcome A) : steps R (lift o).
Proof. intros st. apply R_refl. Qed.

Lemma steps_get_state : steps R get_state.
Proof. intros st. apply R_refl. Qed.

Lemma steps_emit ev : steps R (emit ev).
Proof. intros st. apply R_record. Qed.

Lemma steps_bind {A B} (m : M A) (k : A -> M B) :
  steps R m -> (forall a, steps R (k a)) -> steps R (bind m k).
Proof.
  intros Hm Hk st. unfold bind. specialize (Hm st).
  destruct (m st) as [st' [a|e]]; simpl in *; [|exact Hm].
  eapply R_trans; [exact Hm | apply Hk].
Qed.

Lemma steps_try_catch {A} (body : M A) (handlers : Handlers A) :
  steps R body ->
  (forall e h, handlers e = Some h -> steps R h) ->
  steps R (try_catch body handlers).
Proof.
  intros Hb Hh st. unfold try_catch. specialize (Hb st).
  destruct (body st) as [st' [a|e]]; simpl in *; [exact Hb|].
  destruct (handlers e) as [h|] eqn:E; simpl; [|exact Hb].
  eapply R_trans; [exact Hb | now apply (Hh e h)].
Qed.

Lemma steps_catch_cast_error {A} (k : string -> M A) e h :
  (forall w, steps R (k w)) -> catch_cast_error k e = Some h -> steps R h.
Proof. intros Hk. destruct e; simpl; intros [= <-]. apply Hk. Qed.

Lemma steps_catch_error_already_set {A} (k : string -> M A) e h :
  (forall w, steps R (k w)) -> catch_error_already_set k e = Some h -> steps R h.
Proof. intros Hk. destruct e; simpl; intros [= <-]. apply Hk. Qed.

Lemma steps_or_catch {A} (h1 h2 : Handlers A) e h :
  (forall h', h1 e = Some h' -> steps R h') ->
  (forall h', h2 e = Some h' -> steps R h') ->
  or_catch h1 h2 e = Some h -> steps R h.
Proof.
  intros H1 H2. unfold or_catch. destruct (h1 e) as [m|] eqn:E.
  - intros [= <-]. now apply H1.
  - apply H2.
Qed.

Lemma R_run_ops ops st : R st (run_ops ops st).
Proof.
  revert st. induction ops as [|op ops IH]; intros st; [apply R_refl|].
  change (run_ops (op :: ops) st) with (run_ops ops (run_op op st)).
  eapply R_trans; [|apply IH]. destruct op; simpl.
  - apply R_globals.
  - apply R_globals.
  - apply R_record.
Qed.

Lemma steps_run_ops ops : steps R (modify (run_ops ops)).
Proof. intros st. apply R_run_ops. Qed.

Lemma steps_finish r : steps R (finish r).
Proof. destruct r; [apply steps_ret | apply steps_throw]. Qed.

Lemma steps_run_code c : steps R (run_code c).
Proof. apply steps_bind; [apply steps_run_ops | intros _; apply steps_finish]. Qed.

Lemma steps_call f : steps R (call f).
Proof.
  destruct f; try apply steps_throw.
  apply steps_bind; [apply steps_run_ops | intros _; apply steps_finish].
Qed.

Lemma steps_getitem k : steps R (getitem k).
Proof.
  intros st. unfold getitem, bind, get_state. destruct (globals st !! k); apply R_refl.
Qed.

Lemma steps_contains k : steps R (contains k).
Proof.
  apply steps_bind; [apply steps_emit | intros _].
  apply steps_bind; [apply steps_get_state | intros st; apply steps_ret].
Qed.

Ltac steps_step :=
  match goal with
  | |- steps _ (bind _ _) => apply steps_bind; [|intros ?]
  | |- steps _ (try_catch _ _) => apply steps_try_catch; [|intros ? ?]
  | |- or_catch _ _ _ = Some _ -> _ => apply steps_or_catch; intros ?
  | |- catch_cast_error _ _ = Some _ -> _ => apply steps_catch_cast_error; intros ?
  | |- catch_error_already_set _ _ = Some _ -> _ =>
      apply steps_catch_error_already_set; intros ?
  | |- steps _ (match ?x with _ => _ end) => destruct x
  | |- steps _ (if ?x then _ else _) => destruct x
  | |- _ => first [ apply steps_ret | apply steps_throw | apply steps_lift
                  | apply steps_get_state | apply steps_emit | apply steps_run_ops
                  | apply steps_finish | apply steps_run_code | apply steps_call
                  | apply steps_getitem | apply steps_contains ]
  end.

Context (env : Env).

Lemma load_steps d : steps R (load env d).
Proof. unfold load, install_api, run_pre_script, load_script. repeat steps_step. Qed.

Lemma getPrettyNameFromScope_steps : steps R getPrettyNameFromScope.
Proof.
  unfold getPrettyNameFromScope, name_from_pretty_name, name_from_doc. repeat steps_step.
Qed.

Lemma run_entry_steps d : steps R (run_entry env d).
Proof. unfold run_entry, translate. repeat steps_step. Qed.

Lemma R_initialized st : R st (initialized st).
Proof. unfold initialized. eapply R_trans; [apply R_record | apply R_globals]. Qed.

Lemma R_finalized st : R st (finalized st).
Proof. unfold finalized. eapply R_trans; [apply R_record | apply R_globals]. Qed.

Hypothesis R_description : forall q st, R st (set_description q st).

Lemma interpreted_steps d : steps R (interpreted env d).
Proof.
  unfold interpreted, describe.
  apply steps_bind; [apply load_steps | intros [res|]; [apply steps_ret|]].
  apply steps_bind; [|intros _; apply run_entry_steps].
  apply steps_bind; [apply getPrettyNameFromScope_steps | intros q].
  apply steps_bind; [intros st; apply R_description | intros _; apply steps_emit].
Qed.

Lemma exec_steps : steps R (exec env).
Proof.
  intros st. destruct (check_paths env (m_d st)) as [res|] eqn:Hc.
  - rewrite (exec_checked env st res Hc). apply R_refl.
  - rewrite exec_interpreted by exact Hc. cbn [fst].
    eapply R_trans; [apply R_initialized|].
    eapply R_trans; [apply interpreted_steps | apply R_finalized].
Qed.

End Steps.

Lemma exec_same_job env st : same_job st (fst (exec env st)).
Proof.
  apply (exec_steps same_job); unfold same_job.
  - tauto.
  - intros a b c (H1 & H2 & H3) (H4 & H5 & H6).
    rewrite H4, H5, H6. tauto.
  - intros ev st'. cbn. tauto.
  - intros g st'. cbn. tauto.
  - intros q st'. cbn. tauto.
Qed.

Lemma same_description_refl st : same_description st st.
Proof. reflexivity. Qed.

Lemma same_description_trans a b c :
  same_description a b -> same_description b c -> same_description a c.
Proof. unfold same_description. congruence. Qed.

Lemma same_description_record ev st : same_description st (record ev st).
Proof. reflexivity. Qed.

Lemma same_description_globals g st : same_description st (set_globals g st).
Proof. reflexivity. Qed.

(** X1. [exec] never changes the script file and the working path of the
    job, nor the pre-script slot, whatever the guest code does. *)
Theorem exec_keeps_job_and_slot (env : Env) (st : State) :
  scriptFile (m_d (fst (exec env st))) = scriptFile (m_d st) /\
  workingPath (m_d (fst (exec env st))) = workingPath (m_d st) /\
  s_preScript (fst (exec env st)) = s_preScript st.
Proof. exact (exec_same_job env st). Qed.

Lemma exec_description_derived env st st1 st2 q :
  script_loaded env st st1 ->
  getPrettyNameFromScope st1 = (st2, Returned q) ->
  description (m_d (fst (exec env st))) = q.
Proof.
  intros [Hc Hl] Hn. rewrite exec_interpreted by exact Hc. cbn [fst].
  unfold interpreted, bind. rewrite Hl. unfold describe, bind. rewrite Hn.
  unfold modify, emit, modify.
  pose proof (run_entry_steps same_description same_description_refl
                same_description_trans same_description_record
                same_description_globals env (m_d st)
                (record (Progress ByExec 0) (set_description q st2))) as H.
  unfold same_description in H. cbn [finalized m_d record set_globals].
  rewrite H. reflexivity.
Qed.

(** X2. When the script has loaded and [getPrettyNameFromScope] returns,
    the text it returns is the description of the job when [exec] ends:
    nothing that runs later, the guest's [run] included, changes it. *)
Theorem exec_stores_derived_description (env : Env) (st st1 st2 : State) (q : string) :
  script_loaded env st st1 ->
  getPrettyNameFromScope st1 = (st2, Returned q) ->
  description (m_d (fst (exec env st))) = q.
Proof. apply exec_description_derived. Qed.

Lemma exec_stores_derived_description_witness :
  description
    (m_d (fst (exec (sample_env script_titled) sample_state)))
  = "Partitioning".
Proof.
  apply (exec_stores_derived_description (sample_env script_titled) sample_state
           (loaded_state (sample_env script_titled) sample_state)
           (fst (getPrettyNameFromScope
                   (loaded_state (sample_env script_titled) sample_state)))).
  - apply script_loaded_computed; reflexivity.
  - reflexivity.
Defined.

(** X3. The description is written at one place only: when [exec] ends
    without [getPrettyNameFromScope] having returned - a failed pre-flight
    check, an exception of the pre-script or of the script, an exception
    that leaves [exec] - the description is the one the job had before. *)
Theorem exec_keeps_description_otherwise (env : Env) (st : State) :
  (forall st1 st2 q,
     script_loaded env st st1 -> getPrettyNameFromScope st1 <> (st2, Returned q)) ->
  description (m_d (fst (exec env st))) = description (m_d st).
Proof.
  intros Hno. destruct (check_paths env (m_d st)) as [res|] eqn:Hc.
  - now rewrite (exec_checked env st res Hc).
  - rewrite exec_interpreted by exact Hc. cbn [fst].
    change (same_description st
              (finalized (fst (interpreted env (m_d st) (initialized st))))).
    eapply same_description_trans; [|apply same_description_globals].
    eapply same_description_trans; [|apply same_description_record].
    eapply same_description_trans;
      [apply (same_description_globals fresh_globals)|].
    unfold interpreted, bind.
    pose proof (load_steps same_description same_description_refl
                  same_description_trans same_description_record
                  same_description_globals env (m_d st) (initialized st)) as Hload.
    destruct (load env (m_d st) (initialized st)) as [st1 [[res|]|e]] eqn:Hl;
      cbn [fst] in *.
    + exact Hload.
    + eapply same_description_trans; [exact Hload|].
      unfold describe, bind.
      pose proof (getPrettyNameFromScope_steps same_description same_description_refl
                    same_description_trans same_description_record
                    same_description_globals st1) as Hname.
      destruct (getPrettyNameFromScope st1) as [st2 [q|e]] eqn:Hn; cbn [fst] in *.
      * exfalso. apply (Hno st1 st2 q); [now split | exact Hn].
      * exact Hname.
    + exact Hload.
Qed.

Lemma exec_keeps_description_otherwise_witness :
  description
    (m_d (fst (exec (sample_env script_load_raises) sample_state_described)))
  = "Old title".
Proof.
  apply (exec_keeps_description_otherwise (sample_env script_load_raises)
           sample_state_described).
  intros st1 st2 q [_ Hl]. vm_compute in Hl. discriminate.
Defined.

(** ** What the result of an execution depends on *)

Section Similar.

Lemma agree_refl st : agree st st.
Proof. now split. Qed.






















Context (env : Env).










End Similar.




(** ** The namespace and the trace of the stages *)

Section OpsFacts.

Lemma globals_run_ops ops st : globals (run_ops ops st) = bindings_after ops (globals st).
Proof.
  revert st. induction ops as [|op ops IH]; intros st; [reflexivity|].
  change (run_ops (op :: ops) st) with (run_ops ops (run_op op st)).
  change (bindings_after (op :: ops) (globals st))
    with (bindings_after ops (bind_op (globals st) op)).
  rewrite IH. now destruct op.
Qed.

Lemma trace_run_ops ops st : trace (run_ops ops st) = trace st ++ progress_events ops.
Proof.
  revert st. induction ops as [|op ops IH]; intros st; [now rewrite app_nil_r|].
  change (run_ops (op :: ops) st) with (run_ops ops (run_op op st)).
  rewrite IH. destruct op; cbn; [reflexivity | reflexivity |].
  now rewrite <- app_assoc.
Qed.

Lemma trace_record ev st : trace (record ev st) = trace st ++ [ev].
Proof. reflexivity. Qed.

Lemma trace_initialized st : trace (initialized st) = trace st ++ [InterpreterInitialized].
Proof. reflexivity. Qed.

Lemma trace_finalized st : trace (finalized st) = trace st ++ [InterpreterFinalized].
Proof. reflexivity. Qed.

Lemma progress_events_guest ops : Forall guest_event (progress_events ops).
Proof.
  induction ops as [|[k v|k|v] ops IH]; cbn; try assumption; [constructor|].
  constructor; [exact I | exact IH].
Qed.

End OpsFacts.

Ltac trace_norm :=
  repeat (rewrite ?trace_finalized, ?trace_run_ops, ?trace_record, ?trace_initialized);
  rewrite <- ?app_assoc; cbn [app].

Section LoadShape.

Context (env : Env).

(** The state in which the script has loaded, written out. *)
Lemma load_returns_none d st st1 :
  load env d st = (st1, Returned None) ->
  import_libcalamares env = None /\
  (forall script, s_preScript st = Some script ->
                  exists v, code_result script = PyReturn v) /\
  (exists v, code_result (file_code env (scriptPath env d)) = PyReturn v) /\
  st1 = run_ops (code_ops (file_code env (scriptPath env d)))
          (record (FileEvaluated (scriptPath env d))
             (match s_preScript st with
              | Some script =>
                  run_ops (code_ops script)
                    (record PreScriptExecuted
                       (record GlobalStorageProxyConstructed
                          (record JobProxyConstructed
                             (record (ModuleImported "libcalamares") st))))
              | None =>
                  record GlobalStorageProxyConstructed
                    (record JobProxyConstructed
                       (record (ModuleImported "libcalamares") st))
              end)).
Proof.
  unfold load, install_api, run_pre_script, load_script. monad_unfold.
  destruct (import_libcalamares env) as [w|]; [discriminate|].
  cbv beta iota. cbn [s_preScript record].
  destruct (s_preScript st) as [script|].
  - destruct (code_result script) as [v|w] eqn:Hp; cbv beta iota; [|discriminate].
    destruct (code_result (file_code env (scriptPath env d))) as [v'|w] eqn:Hf;
      cbv beta iota; [|discriminate].
    intros [= <-]. repeat split.
    + intros script' [= <-]. now exists v.
    + now exists v'.
  - destruct (code_result (file_code env (scriptPath env d))) as [v'|w] eqn:Hf;
      cbv beta iota; [|discriminate].
    intros [= <-]. repeat split.
    + discriminate.
    + now exists v'.
Qed.

End LoadShape.

(** X6. The pre-script and the script run in one namespace, in this order:
    when the script has loaded, the top-level namespace is the fresh one
    of the interpreter changed by the bindings of the pre-script and then
    by those of the script, so the script sees and can replace what the
    pre-script bound. *)
Theorem loaded_namespace (env : Env) (st st1 : State) :
  script_loaded env st st1 ->
  globals st1
  = bindings_after (code_ops (file_code env (scriptPath env (m_d st))))
      (bindings_after (pre_script_ops st) fresh_globals).
Proof.
  intros [_ Hl]. apply load_returns_none in Hl as (_ & _ & _ & ->).
  rewrite globals_run_ops, globals_record. unfold pre_script_ops.
  cbn [s_preScript initialized set_globals record].
  destruct (s_preScript st) as [script|]; [|reflexivity].
  now rewrite globals_run_ops.
Qed.

Lemma loaded_namespace_witness :
  globals (loaded_state (sample_env script_run_ok)
             (setInjectedPreScript (Some pre_script_sample) sample_state)) !! "run"
  = Some (def (PyReturn PyNone)) /\
  globals (loaded_state (sample_env script_run_ok)
             (setInjectedPreScript (Some pre_script_sample) sample_state)) !! "helper"
  = Some (PyInt 1).
Proof.
  rewrite (loaded_namespace (sample_env script_run_ok)
             (setInjectedPreScript (Some pre_script_sample) sample_state)
             (loaded_state (sample_env script_run_ok)
                (setInjectedPreScript (Some pre_script_sample) sample_state))).
  - split; reflexivity.
  - apply script_loaded_computed; reflexivity.
Defined.

Section TraceShapes.

Context (env : Env).

Lemma interpreted_adds_only (P : Event -> Prop) d :
  (forall ev, load_event ev -> P ev) ->
  (forall ev, name_event ev -> P ev) ->
  (forall ev, entry_event ev -> P ev) ->
  P (Progress ByExec 0) ->
  adds_only P (interpreted env d).
Proof.
  intros Hl Hn He H0. unfold interpreted, describe.
  apply adds_only_bind; [apply (adds_only_weaken load_event); [exact Hl | apply load_adds]|].
  intros [res|]; [apply adds_only_ret|].
  apply adds_only_bind; [|intros _].
  - apply adds_only_bind;
      [apply (adds_only_weaken name_event);
       [exact Hn | apply getPrettyNameFromScope_adds]|].
    intros q. apply adds_only_bind; [apply adds_only_set_description | intros _].
    now apply adds_only_emit.
  - apply (adds_only_weaken entry_event); [exact He | apply run_entry_adds].
Qed.


End TraceShapes.

(** X7. Between its start and its end an execution that has passed the
    pre-flight checks has one interpreter: the first event is the start of
    the interpreter, the last one its release, no other event in between
    is either of the two, and the namespace is gone afterwards - on every
    way out of [exec], a thrown exception included. *)
Theorem interpreter_lives_once (env : Env) (st : State) :
  check_paths env (m_d st) = None ->
  exists evs,
    trace (fst (exec env st))
    = trace st ++ InterpreterInitialized :: evs ++ [InterpreterFinalized] /\
    Forall not_lifetime_event evs /\
    globals (fst (exec env st)) = ∅.
Proof.
  intros Hc. rewrite exec_interpreted by exact Hc. cbn [fst].
  destruct (interpreted_adds_only env not_lifetime_event (m_d st)) with (st := initialized st)
    as (evs & E & F).
  - intros ev. destruct ev as [| | | | | | | | |[]]; simpl; tauto.
  - intros ev. destruct ev as [| | | | | | | | |[]]; simpl; tauto.
  - intros ev. destruct ev as [| | | | | | | | |[]]; simpl; tauto.
  - exact I.
  - exists evs. split; [|split; [exact F | reflexivity]].
    cbn [finalized trace record set_globals]. rewrite E.
    cbn [initialized trace record set_globals]. now rewrite <- !app_assoc.
Qed.

Lemma interpreter_lives_once_witness :
  exists evs,
    trace (fst (exec (sample_env script_pretty_name_raises) sample_state))
    = trace sample_state ++ InterpreterInitialized :: evs ++ [InterpreterFinalized] /\
    Forall not_lifetime_event evs /\
    globals (fst (exec (sample_env script_pretty_name_raises) sample_state)) = ∅.
Proof.
  apply (interpreter_lives_once (sample_env script_pretty_name_raises) sample_state).
  reflexivity.
Defined.

(** X8. When the import of the API module raises, [exec] throws this
    exception after it has released the interpreter; no proxy has been
    constructed and no guest code has run. *)
Theorem import_failure_propagates (env : Env) (st : State) (what : string) :
  check_paths env (m_d st) = None ->
  import_libcalamares env = Some what ->
  snd (exec env st) = Thrown (error_already_set what) /\
  trace (fst (exec env st))
  = trace st ++ [InterpreterInitialized; InterpreterFinalized].
Proof.
  intros Hc Hi. rewrite exec_interpreted by exact Hc. cbn [fst snd].
  unfold interpreted, load, install_api. monad_unfold. rewrite Hi. cbv beta iota.
  split; [reflexivity|].
  cbn [finalized initialized trace record set_globals fst]. now rewrite <- app_assoc.
Qed.

Lemma import_failure_propagates_witness :
  snd (exec (sample_env_no_import script_run_ok) sample_state)
  = Thrown (error_already_set "ModuleNotFoundError: No module named 'libcalamares'") /\
  trace (fst (exec (sample_env_no_import script_run_ok) sample_state))
  = trace sample_state ++ [InterpreterInitialized; InterpreterFinalized].
Proof.
  apply (import_failure_propagates (sample_env_no_import script_run_ok) sample_state);
    reflexivity.
Defined.



(** ** The pre-script *)

Section PreScript.

Context (env : Env).

Lemma continuation_adds_only (P : Event -> Prop) d (early : option JobResult) :
  (forall ev, name_event ev -> P ev) ->
  (forall ev, entry_event ev -> P ev) ->
  P (Progress ByExec 0) ->
  adds_only P (match early with
               | Some res => ret res
               | None => bind describe (fun _ => run_entry env d)
               end).
Proof.
  intros Hn He H0. destruct early as [res|]; [apply adds_only_ret|].
  apply adds_only_bind; [|intros _].
  - unfold describe. apply adds_only_bind;
      [apply (adds_only_weaken name_event);
       [exact Hn | apply getPrettyNameFromScope_adds]|].
    intros q. apply adds_only_bind; [apply adds_only_set_description | intros _].
    now apply adds_only_emit.
  - apply (adds_only_weaken entry_event); [exact He | apply run_entry_adds].
Qed.

Lemma interpreted_after_load (P : Event -> Prop) d st :
  (forall ev, name_event ev -> P ev) ->
  (forall ev, entry_event ev -> P ev) ->
  P (Progress ByExec 0) ->
  extends P (fst (load env d st)) (fst (interpreted env d st)).
Proof.
  intros Hn He H0. unfold interpreted, bind.
  destruct (load env d st) as [s [early|e]]; cbn [fst]; [|apply extends_refl].
  apply (continuation_adds_only P d early Hn He H0).
Qed.

Lemma load_with_pre_script d st script v :
  import_libcalamares env = None ->
  s_preScript st = Some script ->
  code_result script = PyReturn v ->
  fst (load env d st)
  = run_ops (code_ops (file_code env (scriptPath env d)))
      (record (FileEvaluated (scriptPath env d))
         (run_ops (code_ops script)
            (record PreScriptExecuted
               (record GlobalStorageProxyConstructed
                  (record JobProxyConstructed
                     (record (ModuleImported "libcalamares") st)))))).
Proof.
  intros Hi Hs Hv. unfold load, install_api, run_pre_script, load_script. monad_unfold.
  rewrite Hi. cbv beta iota. cbn [s_preScript record]. rewrite Hs, Hv. cbv beta iota.
  now destruct (code_result (file_code env (scriptPath env d))).
Qed.

Lemma load_with_raising_pre_script d st script w :
  import_libcalamares env = None ->
  s_preScript st = Some script ->
  code_result script = PyRaise w ->
  load env d st
  = (run_ops (code_ops script)
       (record PreScriptExecuted
          (record GlobalStorageProxyConstructed
             (record JobProxyConstructed
                (record (ModuleImported "libcalamares") st)))),
     Returned (Some (JobResult.internalError
                       (tr env "Bad internal script")
                       (arg (tr env "Internal script for python job %1 raised an exception.")
                            (prettyName env d))
                       JobResult.PythonUncaughtException))).
Proof.
  intros Hi Hs Hw. unfold load, install_api, run_pre_script, load_script. monad_unfold.
  rewrite Hi. cbv beta iota. cbn [s_preScript record]. now rewrite Hs, Hw.
Qed.

Lemma load_without_pre_script d st :
  s_preScript st = None ->
  load env d st = bind (install_api env) (fun _ => load_script env d) st.
Proof.
  intros Hs. unfold load, install_api, run_pre_script. monad_unfold.
  destruct (import_libcalamares env); [reflexivity|].
  cbv beta iota. cbn [s_preScript record]. now rewrite Hs.
Qed.

Lemma load_without_pre_script_adds d :
  adds_only not_pre_script_event (bind (install_api env) (fun _ => load_script env d)).
Proof.
  assert (Hg : forall ev, guest_event ev -> not_pre_script_event ev)
    by (intros ev; destruct ev; simpl; tauto).
  unfold install_api, load_script. trace_solve; eauto using Hg with trace.
Qed.

End PreScript.

(** X10. A pre-script that has been set runs on every execution before
    the script, and in the interpreter of this execution: after the API
    has been installed the pre-script is executed, then the script file
    is evaluated. *)
Theorem pre_script_runs_before_script (env : Env) (st : State)
    (script : GuestCode) (v : PyValue) :
  check_paths env (m_d st) = None ->
  import_libcalamares env = None ->
  code_result script = PyReturn v ->
  exists rest,
    trace (fst (exec env (setInjectedPreScript (Some script) st)))
    = trace st
        ++ [InterpreterInitialized; ModuleImported "libcalamares";
            JobProxyConstructed; GlobalStorageProxyConstructed; PreScriptExecuted]
        ++ progress_events (code_ops script)
        ++ FileEvaluated (scriptPath env (m_d st)) :: rest.
Proof.
  intros Hc Hi Hv.
  rewrite exec_interpreted by exact Hc. cbn [fst].
  change (m_d (setInjectedPreScript (Some script) st)) with (m_d st).
  destruct (interpreted_after_load env (fun _ => True) (m_d st)
              (initialized (setInjectedPreScript (Some script) st)))
    as (evs & E & _); try easy.
  rewrite (load_with_pre_script env (m_d st)
             (initialized (setInjectedPreScript (Some script) st)) script v
             Hi eq_refl Hv) in E.
  exists (progress_events (code_ops (file_code env (scriptPath env (m_d st))))
            ++ evs ++ [InterpreterFinalized]).
  rewrite trace_finalized, E. trace_norm. reflexivity.
Qed.

Lemma pre_script_runs_before_script_witness :
  exists rest,
    trace (fst (exec (sample_env script_run_ok)
                  (setInjectedPreScript (Some pre_script_sample) sample_state)))
    = trace sample_state
        ++ [InterpreterInitialized; ModuleImported "libcalamares";
            JobProxyConstructed; GlobalStorageProxyConstructed; PreScriptExecuted]
        ++ [Progress ByEmitProgress 0.1]
        ++ FileEvaluated "/usr/lib/calamares/modules/sample/main.py" :: rest.
Proof.
  apply (pre_script_runs_before_script (sample_env script_run_ok) sample_state
           pre_script_sample PyNone); reflexivity.
Defined.

(** X11. A pre-script that raises ends the execution before the script
    file is evaluated: [exec] returns the internal error "Bad internal
    script", and after the events of the pre-script the interpreter is
    released. *)
Theorem raising_pre_script_stops_loading (env : Env) (st : State)
    (script : GuestCode) (what : string) :
  check_paths env (m_d st) = None ->
  import_libcalamares env = None ->
  code_result script = PyRaise what ->
  snd (exec env (setInjectedPreScript (Some script) st))
  = Returned (JobResult.internalError
                (tr env "Bad internal script")
                (Qt.arg (tr env "Internal script for python job %1 raised an exception.")
                        (prettyName env (m_d st)))
                JobResult.PythonUncaughtException) /\
  trace (fst (exec env (setInjectedPreScript (Some script) st)))
  = trace st
      ++ [InterpreterInitialized; ModuleImported "libcalamares";
          JobProxyConstructed; GlobalStorageProxyConstructed; PreScriptExecuted]
      ++ progress_events (code_ops script) ++ [InterpreterFinalized].
Proof.
  intros Hc Hi Hw.
  rewrite exec_interpreted by exact Hc. cbn [fst snd].
  change (m_d (setInjectedPreScript (Some script) st)) with (m_d st).
  unfold interpreted, bind.
  rewrite (load_with_raising_pre_script env (m_d st)
             (initialized (setInjectedPreScript (Some script) st)) script what
             Hi eq_refl Hw).
  split; [reflexivity|].
  cbn [fst ret]. trace_norm. reflexivity.
Qed.

Lemma raising_pre_script_stops_loading_witness :
  snd (exec (sample_env script_run_ok)
         (setInjectedPreScript (Some script_load_raises) sample_state))
  = Returned (JobResult.internalError
                "Bad internal script"
                "Internal script for python job sample raised an exception."
                JobResult.PythonUncaughtException) /\
  trace (fst (exec (sample_env script_run_ok)
                (setInjectedPreScript (Some script_load_raises) sample_state)))
  = [InterpreterInitialized; ModuleImported "libcalamares";
     JobProxyConstructed; GlobalStorageProxyConstructed; PreScriptExecuted;
     InterpreterFinalized].
Proof.
  apply (raising_pre_script_stops_loading (sample_env script_run_ok) sample_state
           script_load_raises "SyntaxError: invalid syntax"); reflexivity.
Defined.

(** X12. With the pre-script switched off ([setInjectedPreScript] with a
    null pointer) no execution runs a pre-script, whatever had been set
    before. *)
Theorem without_pre_script (env : Env) (st : State) :
  exists evs,
    trace (fst (exec env (setInjectedPreScript None st))) = trace st ++ evs /\
    ~ In PreScriptExecuted evs.
Proof.
  assert (He : extends not_pre_script_event st
                 (fst (exec env (setInjectedPreScript None st)))).
  { destruct (check_paths env (m_d (setInjectedPreScript None st))) as [res|] eqn:Hc.
    - rewrite (exec_checked env _ res Hc). now apply extends_same_trace.
    - rewrite exec_interpreted by exact Hc. cbn [fst].
      change (m_d (setInjectedPreScript None st)) with (m_d st).
      apply scoped_extends with (st := setInjectedPreScript None st); [exact I | exact I |].
      eapply extends_trans; [|apply interpreted_after_load].
      + rewrite load_without_pre_script by reflexivity.
        apply load_without_pre_script_adds.
      + intros ev. destruct ev as [| | | | | | | | |[]]; simpl; tauto.
      + intros ev. destruct ev as [| | | | | | | | |[]]; simpl; tauto.
      + exact I. }
  destruct He as (evs & E & F). exists evs. split; [exact E|].
  intros Hin. rewrite Forall_forall in F. apply list_elem_of_In in Hin.
  exact (F _ Hin).
Qed.

(** ** The texts of the results *)

Section PlainText.

Lemma arg_plain_char c s a :
  Ascii.eqb c "%" = false -> arg (String c s) a = String c (arg s a).
Proof.
  intros Hc. unfold arg. rewrite (argTokens_plain c s Hc), minEscape_char.
  now destruct (minEscape (argTokens s)).
Qed.

Lemma arg_plain_prefix s t a :
  no_percent s = true -> arg (s +:+ t) a = s +:+ arg t a.
Proof.
  induction s as [|c r IH]; intros H; [reflexivity|].
  cbn [no_percent] in H. apply andb_true_iff in H as [Hc Hr].
  apply negb_true_iff in Hc.
  now rewrite !append_cons, (arg_plain_char _ _ _ Hc), IH.
Qed.

Lemma argTokens_plain_prefix s t :
  no_percent s = true -> argTokens (s +:+ t) = plain_tokens s ++ argTokens t.
Proof.
  induction s as [|c r IH]; intros H; [reflexivity|].
  cbn [no_percent] in H. apply andb_true_iff in H as [Hc Hr].
  apply negb_true_iff in Hc.
  now rewrite append_cons, (argTokens_plain _ _ Hc), IH.
Qed.

Lemma minEscape_plain_tokens s ts : minEscape (plain_tokens s ++ ts) = minEscape ts.
Proof. induction s as [|c r IH]; [reflexivity | exact IH]. Qed.

Lemma replaceEscapes_plain_tokens m a s ts :
  replaceEscapes m a (plain_tokens s ++ ts) = s +:+ replaceEscapes m a ts.
Proof.
  induction s as [|c r IH]; [reflexivity|].
  cbn [plain_tokens app replaceEscapes]. now rewrite IH.
Qed.

(** A marker [%1] in front of a text that does not go on with a digit. *)
Lemma argTokens_marker_1 c r :
  digitValue c = None ->
  argTokens (String "%" (String "1" (String c r)))
  = TEscape 1 "%1" :: argTokens (String c r).
Proof.
  intros Hd. cbn [argTokens]. cbn [Ascii.eqb Bool.eqb negb].
  change (digitValue "1") with (Some 1). cbv beta iota. now rewrite Hd.
Qed.

Lemma arg_marker_1_then_plain p2 post a m :
  no_percent p2 = true ->
  starts_with_digit (p2 +:+ post) = false ->
  p2 +:+ post <> "" ->
  minEscape (argTokens post) = Some m -> 1 < m ->
  replaceEscapes 1 a (argTokens post) = post ->
  arg ("%1" +:+ p2 +:+ post) a = a +:+ p2 +:+ post.
Proof.
  intros Hp Hd Hne Hm Hlt Hpost.
  assert (Ht : argTokens ("%1" +:+ p2 +:+ post)
               = TEscape 1 "%1" :: plain_tokens p2 ++ argTokens post).
  { rewrite <- (argTokens_plain_prefix p2 post Hp).
    destruct (p2 +:+ post) as [|c r]; [now destruct Hne|].
    cbn [starts_with_digit] in Hd.
    apply argTokens_marker_1. now destruct (digitValue c). }
  unfold arg. rewrite Ht. cbn [minEscape]. rewrite minEscape_plain_tokens, Hm.
  replace (Nat.min 1 m) with 1 by lia.
  cbn [replaceEscapes Nat.eqb]. now rewrite replaceEscapes_plain_tokens, Hpost.
Qed.

End PlainText.

(** X13. With no translation installed and a script path without a
    percent sign, the error for a missing [run] reads: "Main script file
    <path> for python job <name> does not contain a run() function.",
    whatever the job name is. *)
Theorem missing_run_text_for_plain_path (env : Env) (st st2 : State) :
  untranslated env ->
  no_percent (scriptPath env (m_d st)) = true ->
  entry_reached env st st2 ->
  globals st2 !! "run" = None ->
  snd (exec env st)
  = Returned
      (JobResult.error
         "Bad main script file"
         ("Main script file " +:+ scriptPath env (m_d st) +:+ " for python job "
            +:+ prettyName env (m_d st) +:+ " does not contain a run() function.")).
Proof.
  intros Htr Hp He Hr. rewrite (exec_entry env st st2 He). cbn [snd].
  rewrite (run_entry_absent env _ _ Hr), !Htr. cbn [snd]. do 2 f_equal.
  change (arg "Main script file %1 for python job %2 does not contain a run() function."
            (scriptPath env (m_d st)))
    with ("Main script file " +:+ scriptPath env (m_d st)
            +:+ " for python job %2 does not contain a run() function.").
  rewrite (arg_plain_prefix "Main script file ") by reflexivity.
  rewrite (arg_plain_prefix (scriptPath env (m_d st))) by exact Hp.
  reflexivity.
Qed.

Lemma missing_run_text_for_plain_path_witness :
  snd (exec (sample_env script_no_run) sample_state)
  = Returned
      (JobResult.error
         "Bad main script file"
         ("Main script file " +:+ "/usr/lib/calamares/modules/sample/main.py"
            +:+ " for python job " +:+ "sample" +:+ " does not contain a run() function.")).
Proof.
  apply (missing_run_text_for_plain_path (sample_env script_no_run) sample_state
           (entry_state (sample_env script_no_run) sample_state)).
  - intros s. reflexivity.
  - reflexivity.
  - apply entry_reached_computed; reflexivity.
  - reflexivity.
Defined.

(** X14. The two place markers are filled in by two calls of [arg], one
    after the other. A script path that itself holds the marker [%1]
    (not followed by a digit) therefore takes the job name: the name is
    put into the path, and the marker [%2] of the message is left as it
    is. *)
Theorem marker_in_path_takes_job_name (env : Env) (st st2 : State) (p1 p2 : string) :
  untranslated env ->
  scriptPath env (m_d st) = p1 +:+ "%1" +:+ p2 ->
  no_percent p1 = true -> no_percent p2 = true -> starts_with_digit p2 = false ->
  entry_reached env st st2 ->
  globals st2 !! "run" = None ->
  snd (exec env st)
  = Returned
      (JobResult.error
         "Bad main script file"
         ("Main script file " +:+ p1 +:+ prettyName env (m_d st) +:+ p2
            +:+ " for python job %2 does not contain a run() function.")).
Proof.
  intros Htr Hpath Hp1 Hp2 Hd He Hr. rewrite (exec_entry env st st2 He). cbn [snd].
  rewrite (run_entry_absent env _ _ Hr), !Htr. cbn [snd]. do 2 f_equal.
  change (arg "Main script file %1 for python job %2 does not contain a run() function."
            (scriptPath env (m_d st)))
    with ("Main script file " +:+ scriptPath env (m_d st)
            +:+ " for python job %2 does not contain a run() function.").
  rewrite Hpath, !append_assoc.
  rewrite (arg_plain_prefix "Main script file ") by reflexivity.
  rewrite (arg_plain_prefix p1) by exact Hp1.
  rewrite (arg_marker_1_then_plain p2
             " for python job %2 does not contain a run() function."
             (prettyName env (m_d st)) 2); try reflexivity; try assumption; try lia.
  - now destruct p2.
  - now destruct p2.
Qed.

Lemma marker_in_path_takes_job_name_witness :
  snd (exec (sample_env_marker_path script_no_run) sample_state)
  = Returned
      (JobResult.error
         "Bad main script file"
         "Main script file /mnt/sample/main.py for python job %2 does not contain a run() function.").
Proof.
  apply (marker_in_path_takes_job_name (sample_env_marker_path script_no_run) sample_state
           (entry_state (sample_env_marker_path script_no_run) sample_state)
           "/mnt/" "/main.py").
  - intros s. reflexivity.
  - reflexivity.
  - reflexivity.
  - reflexivity.
  - reflexivity.
  - apply entry_reached_computed; reflexivity.
  - reflexivity.
Defined.

(** ** The description *)

Section DescriptionFacts.

Lemma trimmed_left_head s c r : trimmed_left s = String c r -> isSpace c = false.
Proof.
  induction s as [|d s IH]; cbn [trimmed_left]; [discriminate|].
  destruct (isSpace d) eqn:Hd; [exact IH|]. now intros [= <- _].
Qed.

Lemma trimmed_starts s : starts_with_space (trimmed s) = false.
Proof.
  unfold trimmed. destruct (trimmed_left s) as [|c r] eqn:E; [reflexivity|].
  apply trimmed_left_head in E. cbn [trimmed_right]. rewrite E. exact E.
Qed.

Lemma indexOf_truncate c s : indexOf c (truncate (indexOf c s) s) = (-1)%Z.
Proof.
  unfold truncate. induction s as [|d r IH]; [reflexivity|].
  cbn [indexOf]. destruct (Ascii.eqb d c) eqn:Hd; [reflexivity|].
  destruct (indexOf c r <? 0)%Z eqn:Hi; [reflexivity|].
  apply Z.ltb_ge in Hi.
  replace (Z.to_nat (indexOf c r + 1)) with (S (Z.to_nat (indexOf c r))) by lia.
  cbn [leftChars indexOf]. now rewrite Hd, IH.
Qed.

Lemma truncate_starts c s :
  starts_with_space s = false -> isSpace c = true ->
  starts_with_space (truncate (indexOf c s) s) = false.
Proof.
  unfold truncate. destruct s as [|d r]; [reflexivity|]. cbn [starts_with_space].
  intros Hd Hc. cbn [indexOf]. destruct (Ascii.eqb d c) eqn:E.
  - apply Ascii.eqb_eq in E. congruence.
  - destruct (indexOf c r <? 0)%Z eqn:Hi; [reflexivity|].
    apply Z.ltb_ge in Hi.
    replace (Z.to_nat (indexOf c r + 1)) with (S (Z.to_nat (indexOf c r))) by lia.
    exact Hd.
Qed.

Lemma name_from_doc_result st q :
  snd (name_from_doc st) = Returned (Some q) ->
  isEmpty q = false /\ indexOf "010" q = (-1)%Z /\ starts_with_space q = false.
Proof.
  unfold name_from_doc. monad_unfold.
  destruct (globals st !! "__doc__") as [doc|] eqn:Hd; run_with Hd; [|discriminate].
  destruct doc as [| |s| | |]; cbn [cast_std_string]; cbv beta iota zeta; try discriminate.
  pose proof (trimmed_starts (fromUtf8 (c_str s))) as Ht.
  generalize dependent (trimmed (fromUtf8 (c_str s))). intros t Ht.
  destruct (indexOf "010" t >=? 0)%Z eqn:Hi; cbv beta iota; [|discriminate].
  intros [= <-]. split; [|split].
  - rewrite Z.geb_leb in Hi. apply Z.leb_le in Hi.
    destruct t as [|d r]; [cbn in Hi; lia|]. cbn [starts_with_space] in Ht.
    unfold truncate. cbn [indexOf] in *.
    destruct (Ascii.eqb d "010") eqn:E.
    + apply Ascii.eqb_eq in E. subst d. discriminate.
    + destruct (indexOf "010" r <? 0)%Z eqn:Hr; [lia|].
      apply Z.ltb_ge in Hr.
      replace (Z.to_nat (indexOf "010" r + 1)) with (S (Z.to_nat (indexOf "010" r)))
        by lia.
      reflexivity.
  - apply indexOf_truncate.
  - now apply truncate_starts.
Qed.

End DescriptionFacts.

(** X15. A description that is taken from [__doc__] is the start of one
    line: whenever [pretty_name] gives no name, what
    [getPrettyNameFromScope] returns has no newline in it and does not
    begin with whitespace. *)
Theorem doc_description_is_one_line (st st' : State) (q : string) :
  name_from_pretty_name st = (st', Returned None) ->
  snd (getPrettyNameFromScope st) = Returned q ->
  Qt.indexOf "010" q = (-1)%Z /\ starts_with_space q = false.
Proof.
  intros Hn. unfold getPrettyNameFromScope, bind. rewrite Hn.
  pose proof (name_from_doc_result st') as Hd.
  destruct (name_from_doc st') as [s [[q'|]|e]]; cbn [snd] in *.
  - intros [= <-]. destruct (Hd q' eq_refl) as (_ & H1 & H2). now split.
  - intros [= <-]. now split.
  - discriminate.
Qed.

Lemma doc_description_is_one_line_witness :
  snd (getPrettyNameFromScope (loaded_state (sample_env script_no_run) sample_state))
  = Returned "Sets up the disk." /\
  Qt.indexOf "010" "Sets up the disk." = (-1)%Z /\
  starts_with_space "Sets up the disk." = false.
Proof.
  split; [reflexivity|].
  apply (doc_description_is_one_line
           (loaded_state (sample_env script_no_run) sample_state)
           (fst (name_from_pretty_name
                   (loaded_state (sample_env script_no_run) sample_state)))
           "Sets up the disk."); reflexivity.
Defined.

(** X16. A text returned by [pretty_name] is the description, up to its
    first NUL character; [__doc__] is not looked at then, whatever it
    holds. *)
Theorem pretty_name_text_is_description (st : State) (body : list GuestOp) (s : string) :
  globals st !! "pretty_name" = Some (PyFunction body (PyReturn (PyStr s))) ->
  snd (getPrettyNameFromScope st) = Returned (c_str s) /\
  trace (fst (getPrettyNameFromScope st))
  = trace st ++ [Lookup "pretty_name"; Called "pretty_name"] ++ progress_events body.
Proof.
  intros H. rewrite (name_from_pretty_name_text st body s H). split; [reflexivity|].
  cbn [fst]. trace_norm. reflexivity.
Qed.

Lemma pretty_name_text_is_description_witness :
  snd (getPrettyNameFromScope (loaded_state (sample_env script_titled) sample_state))
  = Returned "Partitioning" /\
  trace (fst (getPrettyNameFromScope
                (loaded_state (sample_env script_titled) sample_state)))
  = trace (loaded_state (sample_env script_titled) sample_state)
      ++ [Lookup "pretty_name"; Called "pretty_name"] ++ [].
Proof.
  apply (pretty_name_text_is_description
           (loaded_state (sample_env script_titled) sample_state) [] "Partitioning").
  reflexivity.
Defined.

(** X17. Without a name from [pretty_name] and without a text bound to
    [__doc__] - the name is not bound, or is bound to something that is
    not text, like the [None] of a fresh interpreter - the description is
    empty. *)
Theorem no_name_no_doc_gives_empty (st st' : State) :
  name_from_pretty_name st = (st', Returned None) ->
  (globals st' !! "__doc__" = None \/
   exists v, globals st' !! "__doc__" = Some v /\ forall s, v <> PyStr s) ->
  snd (getPrettyNameFromScope st) = Returned "".
Proof.
  intros Hn Hd. unfold getPrettyNameFromScope, bind. rewrite Hn.
  unfold name_from_doc. monad_unfold.
  destruct Hd as [Hd|(v & Hd & Hv)]; run_with Hd; [reflexivity|].
  destruct v; try reflexivity. now destruct (Hv s).
Qed.

Lemma no_name_no_doc_gives_empty_witness :
  snd (getPrettyNameFromScope (loaded_state (sample_env script_run_ok) sample_state))
  = Returned "".
Proof.
  apply (no_name_no_doc_gives_empty
           (loaded_state (sample_env script_run_ok) sample_state)
           (fst (name_from_pretty_name
                   (loaded_state (sample_env script_run_ok) sample_state)))).
  - reflexivity.
  - right. exists PyNone. split; [reflexivity | discriminate].
Defined.

(** X18. When [pretty_name] returns something that is not text, the
    description comes from the [__doc__] that is bound after the call:
    the call works on the namespace the adapter reads, so a [__doc__]
    that [pretty_name] has bound is the one that is used. *)
Theorem unusable_pretty_name_falls_back (st : State) (body : list GuestOp)
    (v : PyValue) (text line rest : string) :
  globals st !! "pretty_name" = Some (PyFunction body (PyReturn v)) ->
  (forall s, v <> PyStr s) ->
  bindings_after body (globals st) !! "__doc__" = Some (PyStr text) ->
  Qt.trimmed (fromUtf8 (c_str text)) = line +:+ String "010" rest ->
  Qt.indexOf "010" line = (-1)%Z ->
  snd (getPrettyNameFromScope st) = Returned line.
Proof.
  intros Hp Hv Hd Ht Hl.
  pose proof (name_from_pretty_name_not_text st body v Hp Hv) as Hn.
  rewrite (getPrettyNameFromScope_doc st _ text Hn).
  - cbv zeta. rewrite Ht, (truncate_first_line line rest Hl), indexOf_first by exact Hl.
    cbn [snd]. destruct (Z.of_nat (String.length line) >=? 0)%Z eqn:E; [reflexivity|].
    rewrite Z.geb_leb in E. apply Z.leb_gt in E. lia.
  - now rewrite globals_run_ops, !globals_record.
Qed.

Lemma unusable_pretty_name_falls_back_witness :
  snd (getPrettyNameFromScope (loaded_state (sample_env script_renaming_doc) sample_state))
  = Returned "New words.".
Proof.
  apply (unusable_pretty_name_falls_back
           (loaded_state (sample_env script_renaming_doc) sample_state)
           [OpBind "__doc__" (PyStr "  New words.
More.")] (PyInt 0) "  New words.
More." "New words." "More.").
  - reflexivity.
  - discriminate.
  - reflexivity.
  - reflexivity.
  - reflexivity.
Defined.

(** X19. When the script has loaded, [pretty_name] gives no name and the
    trimmed [__doc__] text has a newline, the job's description after
    [exec] is the text before the first newline. *)
Theorem first_line_of_doc_is_description (env : Env) (st st1 st' : State)
    (text line rest : string) :
  script_loaded env st st1 ->
  name_from_pretty_name st1 = (st', Returned None) ->
  globals st' !! "__doc__" = Some (PyStr text) ->
  Qt.trimmed (fromUtf8 (c_str text)) = line +:+ String "010" rest ->
  Qt.indexOf "010" line = (-1)%Z ->
  description (m_d (fst (exec env st))) = line.
Proof.
  intros Hs Hn Hd Ht Hl.
  pose proof (first_line_of_doc st1 st' text line rest Hn Hd Ht Hl) as H.
  destruct (getPrettyNameFromScope st1) as [st2 o] eqn:E. cbn [snd] in H. subst o.
  exact (exec_description_derived env st st1 st2 line Hs E).
Qed.

Lemma first_line_of_doc_is_description_witness :
  description (m_d (fst (exec (sample_env script_no_run) sample_state)))
  = "Sets up the disk.".
Proof.
  apply (first_line_of_doc_is_description (sample_env script_no_run) sample_state
           (loaded_state (sample_env script_no_run) sample_state)
           (fst (name_from_pretty_name
                   (loaded_state (sample_env script_no_run) sample_state)))
           "Sets up the disk.
Then stops." "Sets up the disk." "Then stops.").
  - apply script_loaded_computed; reflexivity.
  - reflexivity.
  - reflexivity.
  - reflexivity.
  - reflexivity.
Defined.

(** ** Errors and exceptions *)


(** X21. The working directory is checked first: when it does not exist
    or is not readable, [exec] returns the error "Bad working directory
    path" with the working path and the job name in its details, whatever
    the state of the script file is. *)
Theorem bad_directory_is_reported_first (env : Env) (st : State) :
  dir_exists env (workingPath (m_d st)) = false \/
  dir_isReadable env (workingPath (m_d st)) = false ->
  exec env st
  = (st,
     Returned
       (JobResult.error
          (tr env "Bad working directory path")
          (Qt.arg (Qt.arg (tr env "Working directory %1 for python job %2 is not readable.")
                          (workingPath (m_d st)))
                  (prettyName env (m_d st))))).
Proof.
  intros H. apply exec_checked. unfold check_paths.
  destruct H as [-> | ->]; [reflexivity|].
  now rewrite orb_true_r.
Qed.

Lemma bad_directory_is_reported_first_witness :
  exec (sample_env_no_directory script_run_ok) sample_state
  = (sample_state,
     Returned
       (JobResult.error
          "Bad working directory path"
          "Working directory /usr/lib/calamares/modules/sample for python job sample is not readable.")).
Proof.
  apply (bad_directory_is_reported_first (sample_env_no_directory script_run_ok)
           sample_state).
  left. reflexivity.
Defined.

(** X22. With a good working directory, a script path that does not
    exist, is not a file or is not readable gives the error "Bad main
    script file" whose details name the absolute path of the script, the
    path that [exec] would have loaded. *)
Theorem bad_script_file_is_reported (env : Env) (st : State) :
  dir_exists env (workingPath (m_d st)) = true ->
  dir_isReadable env (workingPath (m_d st)) = true ->
  file_exists env
    (dir_absoluteFilePath env (workingPath (m_d st)) (scriptFile (m_d st))) = false \/
  file_isFile env
    (dir_absoluteFilePath env (workingPath (m_d st)) (scriptFile (m_d st))) = false \/
  file_isReadable env
    (dir_absoluteFilePath env (workingPath (m_d st)) (scriptFile (m_d st))) = false ->
  exec env st
  = (st,
     Returned
       (JobResult.error
          (tr env "Bad main script file")
          (Qt.arg (Qt.arg (tr env "Main script file %1 for python job %2 is not readable.")
                          (scriptPath env (m_d st)))
                  (prettyName env (m_d st))))).
Proof.
  intros He Hr H. apply exec_checked. unfold check_paths. rewrite He, Hr.
  cbn [negb orb].
  destruct H as [-> | [-> | ->]]; cbn [negb orb]; rewrite ?orb_true_r; reflexivity.
Qed.

Lemma bad_script_file_is_reported_witness :
  exec (sample_env_no_script script_run_ok) sample_state
  = (sample_state,
     Returned
       (JobResult.error
          "Bad main script file"
          "Main script file /usr/lib/calamares/modules/sample/main.py for python job sample is not readable.")).
Proof.
  apply (bad_script_file_is_reported (sample_env_no_script script_run_ok) sample_state).
  - reflexivity.
  - reflexivity.
  - right. left. reflexivity.
Defined.

Section InternalErrors.

Context (env : Env).

Lemma load_early_results d st res :
  snd (load env d st) = Returned (Some res) ->
  res = JobResult.internalError
          (tr env "Bad internal script")
          (arg (tr env "Internal script for python job %1 raised an exception.")
               (prettyName env d))
          JobResult.PythonUncaughtException \/
  res = JobResult.internalError
          (tr env "Bad main script file")
          (arg (arg (tr env "Main script file %1 for python job %2 could not be loaded because it raised an  exception.")
                    (scriptPath env d))
               (prettyName env d))
          JobResult.PythonUncaughtException.
Proof.
  unfold load, install_api, run_pre_script, load_script. monad_unfold.
  destruct (import_libcalamares env) as [w|]; [discriminate|].
  cbv beta iota. cbn [s_preScript record].
  destruct (s_preScript st) as [script|].
  - destruct (code_result script) as [v|w]; cbv beta iota.
    + destruct (code_result (file_code env (scriptPath env d))); cbv beta iota;
        [discriminate|]. intros [= <-]. now right.
    + intros [= <-]. now left.
  - destruct (code_result (file_code env (scriptPath env d))); cbv beta iota;
      [discriminate|]. intros [= <-]. now right.
Qed.

Lemma translate_result r st res :
  snd (translate env r st) = Returned res ->
  res = JobResult.ok \/ exists s d, res = JobResult.error s d.
Proof.
  unfold translate. monad_unfold. destruct (is_none r); [intros [= <-]; now left|].
  destruct (to_tuple r) as [items|]; [|discriminate].
  destruct (tuple_item items 0) as [i0|]; [|discriminate].
  destruct (asQString env i0) as [s|]; [|discriminate].
  destruct (tuple_item items 1) as [i1|]; [|discriminate].
  destruct (asQString env i1) as [dt|]; [|discriminate].
  intros [= <-]. right. now exists s, dt.
Qed.

Lemma run_entry_internal_error d st s dt c :
  snd (run_entry env d st) = Returned (JobResult.internalError s dt c) ->
  dt = arg (arg (tr env "Main script file %1 for python job %2 raised an exception.")
                (scriptPath env d))
           (prettyName env d).
Proof.
  destruct (globals st !! "run") as [f|] eqn:Hf.
  - destruct f as [| | | | |body [v|w]];
      try (rewrite (run_entry_raises env d st _ Hf I); now intros [= _ <- _]).
    rewrite (run_entry_returns env d st body v Hf).
    pose proof (translate_result v st) as Ht.
    destruct (snd (translate env v st)) as [res|e].
    + intros [= ->]. destruct (Ht _ eq_refl) as [H|(s' & d' & H)]; discriminate.
    + unfold invalid_results. discriminate.
  - rewrite (run_entry_absent env d st Hf). discriminate.
Qed.

Lemma exec_internal_error_details st s dt c :
  snd (exec env st) = Returned (JobResult.internalError s dt c) ->
  dt = arg (tr env "Internal script for python job %1 raised an exception.")
           (prettyName env (m_d st)) \/
  dt = arg (arg (tr env "Main script file %1 for python job %2 could not be loaded because it raised an  exception.")
                (scriptPath env (m_d st)))
           (prettyName env (m_d st)) \/
  dt = arg (arg (tr env "Main script file %1 for python job %2 raised an exception.")
                (scriptPath env (m_d st)))
           (prettyName env (m_d st)).
Proof.
  destruct (check_paths env (m_d st)) as [res|] eqn:Hc.
  - rewrite (exec_checked env st res Hc). cbn [snd]. intros [= ->].
    unfold check_paths in Hc.
    destruct (negb _ || negb _) in Hc; [discriminate|].
    destruct (negb _ || negb _ || negb _) in Hc; discriminate.
  - rewrite exec_interpreted by exact Hc. cbn [snd]. unfold interpreted, bind.
    pose proof (load_early_results (m_d st) (initialized st)) as Hl.
    destruct (load env (m_d st) (initialized st)) as [st1 [[res|]|e]]; cbn [snd] in *.
    + intros [= ->]. destruct (Hl _ eq_refl) as [[= _ <- _]|[= _ <- _]]; tauto.
    + unfold describe, bind.
      destruct (getPrettyNameFromScope st1) as [st2 [q|e]]; [|discriminate].
      unfold modify, emit, modify. intros H.
      apply run_entry_internal_error in H. tauto.
    + discriminate.
Qed.

End InternalErrors.

(** X23. Every internal error that [exec] returns names the job: with no
    translation installed, its details include the job's pretty name,
    whatever the script path and the name are. *)
Theorem internal_errors_name_the_job (env : Env) (st : State)
    (summary details : string) (code : JobResult.ErrorCode) :
  untranslated env ->
  snd (exec env st) = Returned (JobResult.internalError summary details code) ->
  Qt.includes (prettyName env (m_d st)) details.
Proof.
  intros Htr H.
  destruct (exec_internal_error_details env st _ _ _ H) as [-> | [-> | ->]];
    rewrite !Htr.
  - now apply arg_includes with 1.
  - change (arg "Main script file %1 for python job %2 could not be loaded because it raised an  exception."
              (scriptPath env (m_d st)))
      with ("Main script file " +:+ scriptPath env (m_d st)
              +:+ " for python job %2 could not be loaded because it raised an  exception.").
    apply arg_arg_includes; [reflexivity | reflexivity | vm_compute; discriminate].
  - apply raised_message_names_job.
Qed.

Lemma internal_errors_name_the_job_witness :
  Qt.includes "sample"
    "Main script file /usr/lib/calamares/modules/sample/main.py for python job sample could not be loaded because it raised an  exception.".
Proof.
  apply (internal_errors_name_the_job (sample_env script_load_raises) sample_state
           "Bad main script file" _ JobResult.PythonUncaughtException).
  - intros s. reflexivity.
  - reflexivity.
Defined.

(** X24. The status message of a job is never empty when no translation
    is installed: it is the description when the job has one, and the
    text "Running <name> operation." otherwise - as for a job that has
    just been constructed. *)
Theorem status_message_is_never_empty (env : Env) (d : Private) :
  untranslated env ->
  Qt.isEmpty (prettyStatusMessage env d) = false /\
  prettyStatusMessage env (Job (scriptFile d) (workingPath d))
  = "Running " +:+ prettyName env d +:+ " operation.".
Proof.
  intros Htr. unfold prettyStatusMessage. split.
  - destruct (isEmpty (description d)) eqn:E; [|exact E]. now rewrite Htr.
  - cbn [Job description isEmpty]. now rewrite Htr.
Qed.

Lemma status_message_is_never_empty_witness :
  Qt.isEmpty (prettyStatusMessage (sample_env script_run_ok) (m_d sample_state)) = false /\
  prettyStatusMessage (sample_env script_run_ok)
    (Job "main.py" "/usr/lib/calamares/modules/sample")
  = "Running sample operation.".
Proof.
  apply (status_message_is_never_empty (sample_env script_run_ok) (m_d sample_state)).
  intros s. reflexivity.
Defined.

(** X25. Whenever the script has loaded and the description has been
    derived, [exec] emits its progress 0 once, right before it looks up
    [run]: no other event of the execution is a progress signal of
    [exec] itself. *)
Theorem exec_emits_progress_zero_once (env : Env) (st st1 st2 : State) (q : string) :
  script_loaded env st st1 ->
  getPrettyNameFromScope st1 = (st2, Returned q) ->
  exists pre post,
    trace (fst (exec env st))
    = trace st ++ pre ++ Progress ByExec 0 :: Lookup "run" :: post /\
    Forall not_by_exec pre /\ Forall not_by_exec post.
Proof. apply progress_zero_before_entry. Qed.

Lemma exec_emits_progress_zero_once_witness :
  exists pre post,
    trace (fst (exec (sample_env script_no_run) sample_state))
    = trace sample_state ++ pre ++ Progress ByExec 0 :: Lookup "run" :: post /\
    Forall not_by_exec pre /\ Forall not_by_exec post.
Proof.
  apply (exec_emits_progress_zero_once (sample_env script_no_run) sample_state
           (loaded_state (sample_env script_no_run) sample_state)
           (fst (getPrettyNameFromScope
                   (loaded_state (sample_env script_no_run) sample_state)))
           "Sets up the disk.").
  - apply script_loaded_computed; reflexivity.
  - reflexivity.
Defined.

(** X26. A text is a sequence too: when [run()] returns one text of two
    or more characters instead of a pair, [exec] reports its first
    character as the summary and its second as the details (given a
    conversion helper that hands a text over as it is); a text of fewer
    than two characters is reported as invalid results. *)
Theorem text_result_is_read_by_character (env : Env) (st st2 : State)
    (body : list GuestOp) (s : string) :
  (forall t, asQString env (PyStr t) = Returned t) ->
  entry_reached env st st2 ->
  globals st2 !! "run" = Some (PyFunction body (PyReturn (PyStr s))) ->
  snd (exec env st)
  = Returned
      (match s with
       | String a (String b _) =>
           JobResult.error (String a EmptyString) (String b EmptyString)
       | _ => invalid_results env (m_d st)
       end).
Proof.
  intros Ha He Hr. rewrite (exec_entry env st st2 He). cbn [snd].
  rewrite (run_entry_returns env _ _ _ _ Hr).
  destruct s as [|a [|b rest]].
  - reflexivity.
  - now destruct (translate_malformed env (PyStr (String a "")) st2 eq_refl I) as [e ->].
  - rewrite (translate_pair env (PyStr (String a (String b rest))) st2
               (PyStr (String a "")) (PyStr (String b "")) (characters rest)
               (String a "") (String b "") eq_refl eq_refl (Ha _) (Ha _)).
    reflexivity.
Qed.

Lemma text_result_is_read_by_character_witness :
  snd (exec (sample_env script_run_text) sample_state)
  = Returned (JobResult.error "N" "o").
Proof.
  apply (text_result_is_read_by_character (sample_env script_run_text) sample_state
           (entry_state (sample_env script_run_text) sample_state) [] "No disk found").
  - intros t. reflexivity.
  - apply entry_reached_computed; reflexivity.
  - reflexivity.
Defined.
